(** * The Modal deployment of the SAP endpoint generator

    A shallow embedding of [src/modal-deployment.py]: the four deployed
    functions [generate_endpoint], [download_generated_code],
    [list_customers] and [api_generate], over an explicit model of what they
    touch (the file system, the process environment, the external generator
    CLI, the temporary-name generator and the volume).

    Library behaviour ([pathlib], [tempfile], [zipfile], [str], [sorted])
    is that of CPython 3.11, the version the image installs.

    Conventions of the model.
    - A Python [str] is the list of its Unicode code points.
    - The file system is a tree of regular files and directories, on Linux
      ([NAME_MAX] is 255 bytes, [PATH_MAX] 4096); symbolic links and
      permissions are not modelled.  A file holds the text that was written
      to it, or the text its bytes stand for.
    - The container has no locale of its own: text files and pipes are
      UTF-8, file names are encoded by [os.fsencode] (UTF-8 with the
      [surrogateescape] handler) and times are read in UTC.
    - The zip container is modelled by its member table (name and data, in
      write order); DEFLATE and the byte layout are not, but for the limits
      of the format that make [ZipFile.write] fail.
    - The entries of a directory are listed in the order the tree holds
      them.
    - The external CLI is a total function of its argument vector, its
      environment and the file system it starts on: its executable is
      there to be started, and a run that never exits, like the platform's
      30 minute limit, is outside the model.  What [subprocess.run] does
      before the CLI starts (the conversion of the arguments, the limits
      of [execve]) and after it exits (the decoding of its output) is
      modelled.
    - No call fails for want of disk space, descriptors or memory, and
      the volume accepts every commit. *)

From Stdlib Require Import String Ascii.
From Stdlib.Strings Require Import Byte.
From Stdlib Require Import List ZArith NArith Bool Lia.
From Stdlib Require Import Permutation Sorted.
Import ListNotations.

(** ** Python strings *)

Definition str := list N.

(** A literal, from its ASCII spelling. *)
Definition lit (s : string) : str :=
  map N_of_ascii (list_ascii_of_string s).

Fixpoint str_eqb (a b : str) : bool :=
  match a, b with
  | [], [] => true
  | x :: a', y :: b' => N.eqb x y && str_eqb a' b'
  | _, _ => false
  end.

(** [s.startswith(p)] *)
Fixpoint starts_with (p s : str) : bool :=
  match p, s with
  | [], _ => true
  | x :: p', y :: s' => N.eqb x y && starts_with p' s'
  | _ :: _, [] => false
  end.

(** [sub in s] *)
Fixpoint contains (sub s : str) : bool :=
  starts_with sub s ||
  match s with
  | [] => false
  | _ :: s' => contains sub s'
  end.

(** [s.split(sep)] for a non-empty [sep] (Python raises [ValueError] on an
    empty one; every separator of the program is a non-empty literal).  The
    scan goes left to right; at a position where [sep] starts the current
    piece is closed and the [length sep] characters of the separator are
    skipped.  [split_aux] returns the piece under construction and the
    pieces after it. *)
Fixpoint split_aux (sep : str) (skip : nat) (s : str) : str * list str :=
  match s with
  | [] => ([], [])
  | c :: s' =>
      match skip with
      | S k => split_aux sep k s'
      | O =>
          if starts_with sep s
          then let (p, ps) := split_aux sep (length sep - 1) s' in ([], p :: ps)
          else let (p, ps) := split_aux sep 0 s' in (c :: p, ps)
      end
  end.

Definition split (sep s : str) : list str :=
  let (p, ps) := split_aux sep 0 s in p :: ps.

(** [sep.join(l)] *)
Fixpoint join (sep : str) (l : list str) : str :=
  match l with
  | [] => []
  | [x] => x
  | x :: l' => x ++ sep ++ join sep l'
  end.

(** [str.isspace] on one character: the code points CPython's
    [_PyUnicode_IsWhitespace] accepts. *)
Definition isspace (c : N) : bool :=
  ((9 <=? c) && (c <=? 13) || (28 <=? c) && (c <=? 32) ||
   (c =? 133) || (c =? 160) || (c =? 5760) ||
   (8192 <=? c) && (c <=? 8202) ||
   (c =? 8232) || (c =? 8233) || (c =? 8239) || (c =? 8287) ||
   (c =? 12288))%N.

Fixpoint lstrip (s : str) : str :=
  match s with
  | [] => []
  | c :: s' => if isspace c then lstrip s' else s
  end.

Definition rstrip (s : str) : str := rev (lstrip (rev s)).

(** [s.strip()] *)
Definition strip (s : str) : str := rstrip (lstrip s).

(** Truthiness of a string and of an optional value: [None] and the empty
    value are false. *)
Definition nonempty {A} (l : list A) : bool :=
  match l with [] => false | _ :: _ => true end.

Definition truthy {A} (o : option (list A)) : bool :=
  match o with None => false | Some l => nonempty l end.

(** ** Session identifier (lines 136-141 of [generate_endpoint]) *)

Definition SESSION_MARKER : str := lit "Session ID:".
Definition NEWLINE : str := lit (String (ascii_of_nat 10) EmptyString).

(** The loop over [result.stdout.split("\n")], leaving at the first line
    that contains the marker. *)
Fixpoint scan_session_id (lines : list str) : option str :=
  match lines with
  | [] => None
  | line :: rest =>
      if contains SESSION_MARKER line
      then Some (strip (last (split SESSION_MARKER line) []))
      else scan_session_id rest
  end.

Definition parse_session_id (stdout : str) : option str :=
  scan_session_id (split NEWLINE stdout).

(** ** [json.dumps] of a [dict[str, str]] (default separators, ASCII only) *)

Definition hex_digit (n : N) : N := (if n <? 10 then 48 + n else 87 + n)%N.

(** ['\\u{0:04x}'.format(c)] *)
Definition u_escape (c : N) : str :=
  [92; 117; hex_digit ((c / 4096) mod 16); hex_digit ((c / 256) mod 16);
   hex_digit ((c / 16) mod 16); hex_digit (c mod 16)]%N.

Definition escape_char (c : N) : str :=
  (if c =? 34 then [92; 34]
   else if c =? 92 then [92; 92]
   else if c =? 8 then [92; 98]
   else if c =? 12 then [92; 102]
   else if c =? 10 then [92; 110]
   else if c =? 13 then [92; 114]
   else if c =? 9 then [92; 116]
   else if (32 <=? c) && (c <=? 126) then [c]
   else if c <? 65536 then u_escape c
   else let n := c - 65536 in
        u_escape (N.lor 55296 (N.land (N.shiftr n 10) 1023)) ++
        u_escape (N.lor 56320 (N.land n 1023)))%N.

Definition json_string (s : str) : str :=
  [34%N] ++ flat_map escape_char s ++ [34%N].

Definition dict := list (str * str).

Definition json_dumps (d : dict) : str :=
  lit "{" ++
  join (lit ", ") (map (fun kv => json_string (fst kv) ++ lit ": " ++ json_string (snd kv)) d) ++
  lit "}".

(** ** Dictionaries with string keys, in insertion order *)

Fixpoint assoc {A} (k : str) (l : list (str * A)) : option A :=
  match l with
  | [] => None
  | (k', v) :: l' => if str_eqb k' k then Some v else assoc k l'
  end.

(** [d[k] = v]: an existing key keeps its place. *)
Fixpoint set_entry {A} (k : str) (v : A) (l : list (str * A)) : list (str * A) :=
  match l with
  | [] => [(k, v)]
  | (k', v') :: l' =>
      if str_eqb k' k then (k', v) :: l' else (k', v') :: set_entry k v l'
  end.

Fixpoint update_entry {A} (k : str) (f : A -> A) (l : list (str * A)) : list (str * A) :=
  match l with
  | [] => []
  | (k', v') :: l' =>
      if str_eqb k' k then (k', f v') :: l' else (k', v') :: update_entry k f l'
  end.

Definition remove_entry {A} (k : str) (l : list (str * A)) : list (str * A) :=
  filter (fun e => negb (str_eqb (fst e) k)) l.

(** ** [pathlib] on POSIX *)

Definition SLASH : str := lit "/".
Definition DOT : str := lit ".".
Definition DOTDOT : str := lit "..".

(** A pure path: its root (empty for a relative path, ["/"] or ["//"]) and
    its components. *)
Record Path := mkPath { root : str; parts : list str }.

Fixpoint lstrip_sep (s : str) : str :=
  match s with
  | [] => []
  | c :: s' => if (c =? 47)%N then lstrip_sep s' else s
  end.

(** [_PosixFlavour.splitroot] *)
Definition splitroot (part : str) : str * str :=
  match part with
  | c :: _ =>
      if (c =? 47)%N then
        let stripped := lstrip_sep part in
        if Nat.eqb (length part - length stripped) 2
        then (SLASH ++ SLASH, stripped) else (SLASH, stripped)
      else ([], part)
  | [] => ([], [])
  end.

Definition is_component (x : str) : bool :=
  nonempty x && negb (str_eqb x DOT).

(** [Path(s)]: [parse_parts] drops empty and ["."] components and keeps
    [".."]. *)
Definition parse_path (s : str) : Path :=
  let (r, rel) := splitroot s in
  mkPath r (filter is_component (split SLASH rel)).

(** [p / s]: an anchored right operand replaces the left one. *)
Definition joinpath (p : Path) (s : str) : Path :=
  let q := parse_path s in
  if nonempty (root q) then q else mkPath (root p) (parts p ++ parts q).

(** [p._make_child_relpath(name)], for a name read from a directory. *)
Definition child (p : Path) (name : str) : Path :=
  mkPath (root p) (parts p ++ [name]).

(** [str(p)] *)
Definition path_str (p : Path) : str :=
  match root p, parts p with
  | [], [] => DOT
  | r, ps => r ++ join SLASH ps
  end.

(** [p.name] *)
Definition path_name (p : Path) : str := last (parts p) [].

Fixpoint strip_prefix (pre l : list str) : option (list str) :=
  match pre, l with
  | [], _ => Some l
  | x :: pre', y :: l' => if str_eqb x y then strip_prefix pre' l' else None
  | _ :: _, [] => None
  end.

(** ** Exceptions and outcomes *)

Inductive exn :=
| FileNotFoundError (what : str)
| NotADirectoryError (what : str)
| IsADirectoryError (what : str)
| FileExistsError (what : str)
| OSError (what : str)
| KeyError (key : str)
| ValueError (what : str)
| UnicodeEncodeError
| UnicodeDecodeError
| StructError.

Inductive outcome (A : Type) :=
| Ok (a : A)
| Raise (e : exn).
Arguments Ok {A} a.
Arguments Raise {A} e.

(** ** Encodings *)

(** A surrogate code point, and the surrogates U+DC80 to U+DCFF, which the
    [surrogateescape] handler turns back into the byte they stand for. *)
Definition is_surrogate (c : N) : bool := ((55296 <=? c) && (c <=? 57343))%N.

Definition is_escape (c : N) : bool := ((56448 <=? c) && (c <=? 56575))%N.

(** What strict UTF-8 encodes (a text file, a zip member name), and what
    [os.fsencode] encodes (a file name, an argument of a process). *)
Definition utf8_encodable (s : str) : bool :=
  forallb (fun c => negb (is_surrogate c)) s.

Definition fs_encodable (s : str) : bool :=
  forallb (fun c => negb (is_surrogate c) || is_escape c) s.

(** The number of bytes of [os.fsencode(s)]. *)
Definition utf8_width (c : N) : N :=
  (if c <? 128 then 1 else if c <? 2048 then 2 else if c <? 65536 then 3 else 4)%N.

Definition fs_length (s : str) : N :=
  fold_right (fun c n => (if is_escape c then 1 else utf8_width c) + n)%N 0%N s.

Definition has_nul (s : str) : bool := existsb (N.eqb 0) s.

(** [PyUnicode_FSConverter], the conversion of a path or of an argument
    for the system: the encoding first, then the search for a NUL. *)
Definition fsconvert (s : str) : option exn :=
  if negb (fs_encodable s) then Some UnicodeEncodeError
  else if has_nul s then Some (ValueError (lit "embedded null byte"))
  else None.

(** [bytes.decode("utf-8")], strict: no overlong form, no surrogate,
    nothing above U+10FFFF, no truncated sequence. *)
Definition continuation (b : N) : bool := ((128 <=? b) && (b <=? 191))%N.

Definition second_of_three (b0 b1 : N) : bool :=
  (if b0 =? 224 then (160 <=? b1) && (b1 <=? 191)
   else if b0 =? 237 then (128 <=? b1) && (b1 <=? 159)
   else continuation b1)%N.

Definition second_of_four (b0 b1 : N) : bool :=
  (if b0 =? 240 then (144 <=? b1) && (b1 <=? 191)
   else if b0 =? 244 then (128 <=? b1) && (b1 <=? 143)
   else continuation b1)%N.

Fixpoint utf8_decode (b : list N) : option str :=
  match b with
  | [] => Some []
  | b0 :: r0 =>
      if (b0 <? 128)%N then option_map (cons b0) (utf8_decode r0)
      else if ((194 <=? b0) && (b0 <=? 223))%N then
        match r0 with
        | b1 :: r1 =>
            if continuation b1
            then option_map (cons ((b0 - 192) * 64 + (b1 - 128))%N) (utf8_decode r1)
            else None
        | _ => None
        end
      else if ((224 <=? b0) && (b0 <=? 239))%N then
        match r0 with
        | b1 :: b2 :: r2 =>
            if second_of_three b0 b1 && continuation b2
            then option_map
                   (cons ((b0 - 224) * 4096 + (b1 - 128) * 64 + (b2 - 128))%N)
                   (utf8_decode r2)
            else None
        | _ => None
        end
      else if ((240 <=? b0) && (b0 <=? 244))%N then
        match r0 with
        | b1 :: b2 :: b3 :: r3 =>
            if second_of_four b0 b1 && continuation b2 && continuation b3
            then option_map
                   (cons ((b0 - 240) * 262144 + (b1 - 128) * 4096 +
                          (b2 - 128) * 64 + (b3 - 128))%N)
                   (utf8_decode r3)
            else None
        | _ => None
        end
      else None
  end.

(** [Popen._translate_newlines]: ["\r\n"] and then ["\r"] become
    ["\n"]. *)
Fixpoint translate_newlines (s : str) : str :=
  match s with
  | [] => []
  | c :: s' =>
      if (c =? 13)%N then
        match s' with
        | d :: s'' => if (d =? 10)%N then 10%N :: translate_newlines s''
                      else 10%N :: translate_newlines s'
        | [] => [10%N]
        end
      else c :: translate_newlines s'
  end.

(** The text of the bytes a process wrote, under [text=True]. *)
Definition text_of (b : list byte) : option str :=
  option_map translate_newlines (utf8_decode (map Byte.to_N b)).

(** [p.relative_to(other)] *)
Definition relative_to (p other : Path) : outcome Path :=
  if str_eqb (root p) (root other) then
    match strip_prefix (parts other) (parts p) with
    | Some rel => Ok (mkPath [] rel)
    | None => Raise (ValueError (path_str p))
    end
  else Raise (ValueError (path_str p)).

(** ** The file system *)

#[warnings="-register-all"]
Inductive node :=
| File (mtime : Z) (data : str)
| Dir (mtime : Z) (entries : list (str * node)).

(** The node at a path of entry names below [n]. *)
Fixpoint get (n : node) (p : list str) {struct p} : option node :=
  match p with
  | [] => Some n
  | x :: q =>
      match n with
      | File _ _ => None
      | Dir _ es =>
          match assoc x es with
          | Some c => get c q
          | None => None
          end
      end
  end.

(** The node at [p] replaced by its image under [f]. *)
Fixpoint update (n : node) (p : list str) (f : node -> node) {struct p} : node :=
  match p with
  | [] => f n
  | x :: q =>
      match n with
      | File t d => File t d
      | Dir t es => Dir t (update_entry x (fun c => update c q f) es)
      end
  end.

Inductive errno := ENOENT | ENOTDIR.

Inductive lookup (A : Type) :=
| Hit (a : A)
| Err (e : errno).
Arguments Hit {A} a.
Arguments Err {A} e.

(** Path resolution as the kernel does it, from the directory whose
    canonical path is [cur]: every component is looked up in a directory,
    [".."] goes to the parent, and the parent of the root is the root. *)
Fixpoint walk (r : node) (cur : list str) (ps : list str) : lookup (list str) :=
  match ps with
  | [] => Hit cur
  | x :: rest =>
      match get r cur with
      | Some (Dir _ es) =>
          if str_eqb x DOTDOT then walk r (removelast cur) rest
          else match assoc x es with
               | Some _ => walk r (cur ++ [x]) rest
               | None => Err ENOENT
               end
      | Some (File _ _) => Err ENOTDIR
      | None => Err ENOENT
      end
  end.

(** Every path of the program is absolute, so resolution starts at the
    root. *)
Definition realpath (r : node) (p : Path) : lookup (list str) :=
  walk r [] (parts p).

(** The node a path leads to: the answer of the tree to [os.stat(p)]. *)
Definition stat (r : node) (p : Path) : lookup node :=
  match realpath r p with
  | Hit c => match get r c with Some n => Hit n | None => Err ENOENT end
  | Err e => Err e
  end.

(** Whether a path leads to a node, to a directory, to a regular file, as
    the tree has it.  For an entry that was read from a directory of the
    store these are the answers of [p.is_dir()] and [p.is_file()], which
    turn [ENOENT] and [ENOTDIR] into [False]: a name that a directory
    holds is one the system accepts.  For a path made of a name that the
    caller gives, see [Path_exists] and [Path_is_file] below. *)
Definition path_exists (r : node) (p : Path) : bool :=
  match stat r p with Hit _ => true | Err _ => false end.

Definition is_dir (r : node) (p : Path) : bool :=
  match stat r p with Hit (Dir _ _) => true | _ => false end.


Definition is_dir_node (n : node) : bool :=
  match n with Dir _ _ => true | File _ _ => false end.

(** The paths [rglob("*")] yields below a directory, relative to it: for
    each directory of the subtree in pre-order, all of its entries (files
    and directories alike, in directory order). *)
Fixpoint rglob_rel (n : node) : list (list str) :=
  match n with
  | File _ _ => []
  | Dir _ es =>
      map (fun e => [fst e]) es ++
      flat_map (fun e => match e with
                         | (x, c) => if is_dir_node c
                                     then map (cons x) (rglob_rel c) else []
                         end) es
  end.

(** [p.rglob("*")]: nothing unless [p] is a directory. *)
Definition rglob (r : node) (p : Path) : list Path :=
  match stat r p with
  | Hit (Dir t es) =>
      map (fun rel => mkPath (root p) (parts p ++ rel)) (rglob_rel (Dir t es))
  | _ => []
  end.

(** ** What the system refuses *)

Definition NAME_MAX : N := 255.
Definition PATH_MAX : N := 4096.

(** Whether the resolution of [ps] from the directory at [cur] comes to
    look up, in a directory, a name of more than [NAME_MAX] bytes: the
    kernel answers [ENAMETOOLONG] there.  A missing entry or a regular
    file on the way is met first. *)
Fixpoint long_name (r : node) (cur : list str) (ps : list str) : bool :=
  match ps with
  | [] => false
  | x :: rest =>
      match get r cur with
      | Some (Dir _ es) =>
          if str_eqb x DOTDOT then long_name r (removelast cur) rest
          else if (NAME_MAX <? fs_length x)%N then true
          else match assoc x es with
               | Some _ => long_name r (cur ++ [x]) rest
               | None => false
               end
      | _ => false
      end
  end.

(** The error that a system call on [p] meets before the tree gives its
    answer: the path cannot be converted, has [PATH_MAX] bytes or more,
    or holds a name too long where it is looked up. *)
Definition path_error (r : node) (p : Path) : option exn :=
  match fsconvert (path_str p) with
  | Some e => Some e
  | None =>
      if (PATH_MAX <=? fs_length (path_str p))%N || long_name r [] (parts p)
      then Some (OSError (lit "File name too long"))
      else None
  end.

(** [os.stat(p)] *)
Definition os_stat (r : node) (p : Path) : outcome node :=
  match path_error r p with
  | Some e => Raise e
  | None =>
      match stat r p with
      | Hit n => Ok n
      | Err ENOENT => Raise (FileNotFoundError (path_str p))
      | Err ENOTDIR => Raise (NotADirectoryError (path_str p))
      end
  end.

(** [p.exists()] and [p.is_file()]: the errors [ENOENT] and [ENOTDIR] and
    a [ValueError] (a path that cannot be converted) give [False], any
    other error is raised. *)
Definition ignoring (o : outcome node) (f : node -> bool) : outcome bool :=
  match o with
  | Ok n => Ok (f n)
  | Raise (FileNotFoundError _) => Ok false
  | Raise (NotADirectoryError _) => Ok false
  | Raise (ValueError _) => Ok false
  | Raise UnicodeEncodeError => Ok false
  | Raise e => Raise e
  end.

Definition Path_exists (r : node) (p : Path) : outcome bool :=
  ignoring (os_stat r p) (fun _ => true).

Definition Path_is_file (r : node) (p : Path) : outcome bool :=
  ignoring (os_stat r p) (fun n => negb (is_dir_node n)).

(** ** The world of an invocation *)

(** What an invocation leaves behind besides the file system. *)
Inductive event :=
| EvPrint (line : str)
| EvRun (cmd : list str) (env : dict) (before : node)
| EvCommit
| EvZipOpen.

(** [fs] is the file system of the container (with the volume mounted at
    [/output]); [environ] is [os.environ]; [clock] is the time stamped on
    what the invocation creates (the program never reads those stamps
    back); [tempdir] is [tempfile.gettempdir()]; [rng] is the sequence of
    names [tempfile] draws (eight characters of [a-z0-9_] each), of which
    [drawn] are used up.  [stdout_escapes] tells whether standard output
    has the [surrogateescape] handler (it has under the C locales, and
    the strict one otherwise); [arg_max] is the room [execve] has for the
    arguments and the environment (a quarter of the stack limit, less
    the path of the executable). *)
Record world := mkWorld {
  fs : node;
  environ : dict;
  clock : Z;
  tempdir : Path;
  rng : nat -> str;
  drawn : nat;
  log : list event;
  stdout_escapes : bool;
  arg_max : N
}.

Definition set_fs (w : world) (r : node) : world :=
  mkWorld r (environ w) (clock w) (tempdir w) (rng w) (drawn w) (log w)
    (stdout_escapes w) (arg_max w).

Definition emit (e : event) (w : world) : world :=
  mkWorld (fs w) (environ w) (clock w) (tempdir w) (rng w) (drawn w) (log w ++ [e])
    (stdout_escapes w) (arg_max w).

Definition draw (w : world) : world :=
  mkWorld (fs w) (environ w) (clock w) (tempdir w) (rng w) (S (drawn w)) (log w)
    (stdout_escapes w) (arg_max w).

(** Computations: state passing over the world, with exceptions. *)
Definition M (A : Type) := world -> outcome A * world.

Definition ret {A} (a : A) : M A := fun w => (Ok a, w).

Definition raise {A} (e : exn) : M A := fun w => (Raise e, w).

Definition bind {A B} (m : M A) (k : A -> M B) : M B :=
  fun w => match m w with
           | (Ok a, w') => k a w'
           | (Raise e, w') => (Raise e, w')
           end.

Notation "x <- m ;; k" := (bind m (fun x => k))
  (at level 61, m at next level, right associativity).
Notation "m ;;; k" := (bind m (fun _ => k))
  (at level 61, right associativity).

(** A read of the file system, and one that can fail. *)
Definition reads {A} (f : node -> A) : M A := fun w => (Ok (f (fs w)), w).

Definition tries {A} (f : node -> outcome A) : M A := fun w => (f (fs w), w).

(** What standard output can encode. *)
Definition stdout_encodable (w : world) (line : str) : bool :=
  if stdout_escapes w then fs_encodable line else utf8_encodable line.

(** [print(line)]: nothing is written of a line that cannot be encoded. *)
Definition print (line : str) : M unit := fun w =>
  if stdout_encodable w line
  then (Ok tt, emit (EvPrint line) w)
  else (Raise UnicodeEncodeError, w).

(** [volume.commit()] *)
Definition volume_commit : M unit := fun w => (Ok tt, emit EvCommit w).

(** Creating [x] in a directory, and removing it, stamp the directory. *)
Definition create (now : Z) (x : str) (new : node) (d : node) : node :=
  match d with
  | Dir _ es => Dir now (set_entry x new es)
  | File t data => File t data
  end.

Definition unlink (now : Z) (x : str) (d : node) : node :=
  match d with
  | Dir _ es => Dir now (remove_entry x es)
  | File t data => File t data
  end.

Definition overwrite (now : Z) (data : str) (n : node) : node :=
  match n with
  | File _ _ => File now data
  | Dir t es => Dir t es
  end.

Definition parent (p : Path) : Path := mkPath (root p) (removelast (parts p)).

(** [os.mkdir(p)] *)
Definition mkdir (p : Path) : M unit := fun w =>
  match path_error (fs w) p with
  | Some e => (Raise e, w)
  | None =>
      match stat (fs w) p with
      | Hit _ => (Raise (FileExistsError (path_str p)), w)
      | Err ENOTDIR => (Raise (NotADirectoryError (path_str p)), w)
      | Err ENOENT =>
          match realpath (fs w) (parent p) with
          | Hit c =>
              (Ok tt, set_fs w (update (fs w) c
                                  (create (clock w) (path_name p) (Dir (clock w) []))))
          | Err _ => (Raise (FileNotFoundError (path_str p)), w)
          end
      end
  end.

(** [p.write_text(data)]: the file is opened for writing, which creates
    it or empties it; then the text is encoded, and written when it can
    be: a text that UTF-8 cannot encode leaves the file empty. *)
Definition write_text (p : Path) (data : str) : M unit := fun w =>
  let written := if utf8_encodable data then data else [] in
  let done := if utf8_encodable data then Ok tt else Raise UnicodeEncodeError in
  match path_error (fs w) p with
  | Some e => (Raise e, w)
  | None =>
      match stat (fs w) p with
      | Hit (Dir _ _) => (Raise (IsADirectoryError (path_str p)), w)
      | Hit (File _ _) =>
          match realpath (fs w) p with
          | Hit c => (done, set_fs w (update (fs w) c (overwrite (clock w) written)))
          | Err _ => (Raise (FileNotFoundError (path_str p)), w)
          end
      | Err ENOTDIR => (Raise (NotADirectoryError (path_str p)), w)
      | Err ENOENT =>
          match realpath (fs w) (parent p) with
          | Hit c =>
              (done, set_fs w (update (fs w) c
                                 (create (clock w) (path_name p)
                                    (File (clock w) written))))
          | Err _ => (Raise (FileNotFoundError (path_str p)), w)
          end
      end
  end.

(** [os.listdir(p)], as the child paths [iterdir] makes of it. *)
Definition iterdir (p : Path) : M (list Path) := fun w =>
  match stat (fs w) p with
  | Hit (Dir _ es) => (Ok (map (fun e => child p (fst e)) es), w)
  | Hit (File _ _) => (Raise (NotADirectoryError (path_str p)), w)
  | Err ENOTDIR => (Raise (NotADirectoryError (path_str p)), w)
  | Err ENOENT => (Raise (FileNotFoundError (path_str p)), w)
  end.

(** [os.stat(p).st_mtime] *)
Definition st_mtime (p : Path) : M Z := fun w =>
  match stat (fs w) p with
  | Hit (Dir t _) => (Ok t, w)
  | Hit (File t _) => (Ok t, w)
  | Err ENOTDIR => (Raise (NotADirectoryError (path_str p)), w)
  | Err ENOENT => (Raise (FileNotFoundError (path_str p)), w)
  end.

(** *** [tempfile.TemporaryDirectory] *)

Definition TEMPLATE : str := lit "tmp".
Definition TMP_MAX : nat := N.to_nat 238328.

(** [mkdtemp]: the first drawn name that [os.mkdir] accepts, among
    [TMP_MAX] draws at most. *)
Fixpoint mkdtemp_loop (fuel : nat) (w : world) : outcome Path * world :=
  match fuel with
  | O => (Raise (FileExistsError (lit "No usable temporary directory name found")), w)
  | S fuel' =>
      let file := child (tempdir w) (TEMPLATE ++ rng w (drawn w)) in
      match mkdir file (draw w) with
      | (Ok _, w') => (Ok file, w')
      | (Raise (FileExistsError _), w') => mkdtemp_loop fuel' w'
      | (Raise e, w') => (Raise e, w')
      end
  end.

Definition mkdtemp : M Path := mkdtemp_loop TMP_MAX.

(** [TemporaryDirectory.cleanup]: [rmtree] with a handler that lets
    [FileNotFoundError] pass and raises everything else again. *)
Definition cleanup (p : Path) : M unit := fun w =>
  match path_error (fs w) p with
  | Some e => (Raise e, w)
  | None =>
      match stat (fs w) p with
      | Err ENOENT => (Ok tt, w)
      | Err ENOTDIR => (Raise (NotADirectoryError (path_str p)), w)
      | Hit (File _ _) => (Raise (NotADirectoryError (path_str p)), w)
      | Hit (Dir _ _) =>
          match realpath (fs w) p with
          | Hit (x :: c) =>
              (Ok tt, set_fs w (update (fs w) (removelast (x :: c))
                                  (unlink (clock w) (last (x :: c) []))))
          | Hit [] => (Raise (OSError (path_str p)), w)
          | Err _ => (Ok tt, w)
          end
      end
  end.

(** [with tempfile.TemporaryDirectory() as temp_dir: body]: the directory
    is removed when the block is left, by a return or by an exception. *)
Definition with_TemporaryDirectory {A} (body : Path -> M A) : M A := fun w =>
  match mkdtemp w with
  | (Raise e, w1) => (Raise e, w1)
  | (Ok temp_dir, w1) =>
      match body temp_dir w1 with
      | (r, w2) =>
          match cleanup temp_dir w2 with
          | (Ok _, w3) => (r, w3)
          | (Raise e, w3) => (Raise e, w3)
          end
      end
  end.

(** ** The deployed functions *)

(** What a run of the CLI leaves in the pipes, and its return code; and
    the [CompletedProcess] that [subprocess.run] makes of them under
    [text=True]. *)
Record CompletedProcess := mkCompleted {
  raw_stdout : list byte;
  raw_stderr : list byte;
  returncode : Z
}.

Record RunResult := mkRun {
  run_stdout : str;
  run_stderr : str;
  run_returncode : Z
}.

Record GenerationResult := mkResult {
  session_id : option str;
  output_dir : str;
  files : list str;
  stdout : str;
  stderr : str;
  exit_code : Z
}.

Record CustomerRecord := mkCustomer {
  name : str;
  modified : Z;
  file_count : nat
}.

(** The zip archive, by its member table. *)
Definition archive := list (str * str).


Definition API_KEY : str := lit "ANTHROPIC_API_KEY".
Definition OUTPUT : str := lit "/output".

(** [Path(f"/output/{customer_name}")] *)
Definition customer_output_dir (customer_name : str) : Path :=
  parse_path (OUTPUT ++ SLASH ++ customer_name).

(** [os.environ[key]] *)
Definition environ_get (key : str) : M str := fun w =>
  match assoc key (environ w) with
  | Some v => (Ok v, w)
  | None => (Raise (KeyError key), w)
  end.

(** Lines 92-96: the loop that writes the config files. *)
Fixpoint write_config_files (config_dir : Path) (items : dict) : M (list str) :=
  match items with
  | [] => ret []
  | (filename, content) :: rest =>
      let file_path := joinpath config_dir filename in
      write_text file_path content ;;;
      config_paths <- write_config_files config_dir rest ;;
      ret (path_str file_path :: config_paths)
  end.

(** Lines 98-120: the command.  An optional parameter adds its flag when
    it is truthy: neither null nor empty. *)
Definition build_cmd (customer_name sap_version : str) (config_paths quote_fields : list str)
    (custom_fields : option dict) (special_logic resume_session_id : option str)
    (fork_session : bool) : list str :=
  [lit "node"; lit "/app/dist/cli.js"; lit "quote";
   lit "--customer"; customer_name;
   lit "--sap-version"; sap_version;
   lit "--config-files"] ++ config_paths ++
  [lit "--output"; lit "/output"; lit "--fields"] ++ quote_fields ++
  match custom_fields with
  | Some (kv :: d) => [lit "--custom-fields"; json_dumps (kv :: d)]
  | _ => []
  end ++
  match special_logic with
  | Some (c :: s) => [lit "--special-logic"; c :: s]
  | _ => []
  end ++
  match resume_session_id with
  | Some (c :: s) =>
      [lit "--resume"; c :: s] ++ (if fork_session then [lit "--fork"] else [])
  | _ => []
  end.

(** Lines 147-151: the comprehension over [output_dir.rglob("*")]. *)
Fixpoint relative_files (r : node) (base : Path) (l : list Path) : outcome (list str) :=
  match l with
  | [] => Ok []
  | f :: l' =>
      match Path_is_file r f with
      | Ok true =>
          match relative_to f base with
          | Ok rel =>
              match relative_files r base l' with
              | Ok rest => Ok (path_str rel :: rest)
              | Raise e => Raise e
              end
          | Raise e => Raise e
          end
      | Ok false => relative_files r base l'
      | Raise e => Raise e
      end
  end.

(** The modification times, in seconds since the epoch, between which
    [time.localtime] has a year to give, and those of the years 1980 to
    2107, which a zip header can hold. *)
Definition TM_MIN : Z := (-67768040609740800)%Z.
Definition TM_MAX : Z := 67768036191676799%Z.
Definition ZIP_MIN : Z := 315532800%Z.
Definition ZIP_MAX : Z := 4354819199%Z.

(** The member that [ZipFile.write] adds for a file modified at [t]:
    [ZipInfo.from_file] reads the time, [ZipInfo] refuses a year before
    1980, and the header wants a name that UTF-8 encodes and a year that
    fits its date field. *)
Definition zip_member (z : archive) (t : Z) (member data : str) : outcome archive :=
  if ((t <? TM_MIN) || (TM_MAX <? t))%Z
  then Raise (OSError (lit "Value too large for defined data type"))
  else if (t <? ZIP_MIN)%Z
  then Raise (ValueError (lit "ZIP does not support timestamps before 1980"))
  else if negb (utf8_encodable member) then Raise UnicodeEncodeError
  else if (ZIP_MAX <? t)%Z then Raise StructError
  else Ok (z ++ [(member, data)]).

(** [zip_file.write(file_path, arcname)]: [os.path.normpath] and the
    removal of leading separators leave the string of a relative path made
    of entry names as it is. *)
Definition zip_write (r : node) (z : archive) (file_path arcname : Path) : outcome archive :=
  match os_stat r file_path with
  | Ok (File t data) => zip_member z t (path_str arcname) data
  | Ok (Dir t _) => zip_member z t (path_str arcname ++ SLASH) []
  | Raise e => Raise e
  end.

(** Lines 192-195: the loop that fills the archive. *)
Fixpoint zip_files (r : node) (output_dir : Path) (l : list Path) (z : archive) : outcome archive :=
  match l with
  | [] => Ok z
  | file_path :: l' =>
      match Path_is_file r file_path with
      | Ok true =>
          match relative_to file_path output_dir with
          | Ok arcname =>
              match zip_write r z file_path arcname with
              | Ok z' => zip_files r output_dir l' z'
              | Raise e => Raise e
              end
          | Raise e => Raise e
          end
      | Ok false => zip_files r output_dir l' z
      | Raise e => Raise e
      end
  end.

(** [sorted(l, key=..., reverse=True)]: the stable sort by decreasing key
    (elements of equal key stay in their order). *)
Fixpoint insert_desc {A} (key : A -> Z) (x : A) (l : list A) : list A :=
  match l with
  | [] => [x]
  | y :: l' => if (key x <? key y)%Z then y :: insert_desc key x l' else x :: l
  end.

Definition sorted_desc {A} (key : A -> Z) (l : list A) : list A :=
  fold_right (insert_desc key) [] l.

(** Lines 219-226: the loop over the entries of the store. *)
Fixpoint customer_records (l : list Path) : M (list CustomerRecord) :=
  match l with
  | [] => ret []
  | customer_dir :: l' =>
      d <- reads (fun r => is_dir r customer_dir) ;;
      if d then
        t <- st_mtime customer_dir ;;
        n <- reads (fun r => length (rglob r customer_dir)) ;;
        rest <- customer_records l' ;;
        ret (mkCustomer (path_name customer_dir) t n :: rest)
      else customer_records l'
  end.

(** [EvZipOpen] records the creation of the [ZipFile] (line 191). *)
Definition download_generated_code (customer_name : str) : M archive :=
  let output_dir := customer_output_dir customer_name in
  found <- tries (fun r => Path_exists r output_dir) ;;
  if negb found
  then raise (FileNotFoundError (lit "No generated code found for " ++ customer_name))
  else
    (fun w => (Ok tt, emit EvZipOpen w)) ;;;
    paths <- reads (fun r => rglob r output_dir) ;;
    z <- (fun w => (zip_files (fs w) output_dir paths [], w)) ;;
    ret z.

Definition list_customers : M (list CustomerRecord) :=
  let output_dir := parse_path OUTPUT in
  found <- tries (fun r => Path_exists r output_dir) ;;
  customers <- (if found
                then children <- iterdir output_dir ;; customer_records children
                else ret []) ;;
  ret (sorted_desc modified customers).

(** *** Starting a process *)

Definition MAX_ARG_STRLEN : N := 131072.

(** The pass of [Popen] over the environment, which encodes the names
    and the values. *)
Fixpoint env_error (env : dict) : option exn :=
  match env with
  | [] => None
  | (k, v) :: env' =>
      if negb (fs_encodable k) then Some UnicodeEncodeError
      else if existsb (N.eqb 61) k
      then Some (ValueError (lit "illegal environment variable name"))
      else if negb (fs_encodable v) then Some UnicodeEncodeError
      else env_error env'
  end.

(** The conversion of the arguments, one after the other. *)
Fixpoint args_error (cmd : list str) : option exn :=
  match cmd with
  | [] => None
  | a :: cmd' =>
      match fsconvert a with
      | Some e => Some e
      | None => args_error cmd'
      end
  end.

(** The bytes [execve] has to place: each argument and each [name=value]
    with its terminator, and a pointer to each. *)
Definition exec_size (cmd : list str) (env : dict) : N :=
  (fold_right (fun a n => fs_length a + 1 + 8 + n) 0 cmd +
   fold_right (fun kv n => fs_length (fst kv) + 1 + fs_length (snd kv) + 1 + 8 + n)
     0 env)%N.

Definition too_big (room : N) (cmd : list str) (env : dict) : bool :=
  (existsb (fun a => MAX_ARG_STRLEN <? fs_length a + 1) cmd ||
   existsb (fun kv => MAX_ARG_STRLEN <? fs_length (fst kv) + 1 + fs_length (snd kv) + 1)
     env ||
   (room <? exec_size cmd env))%N.

(** What keeps [subprocess.run] from starting the process. *)
Definition launch_error (room : N) (cmd : list str) (env : dict) : option exn :=
  match env_error env with
  | Some e => Some e
  | None =>
      match args_error cmd with
      | Some e => Some e
      | None =>
          if existsb (fun kv => has_nul (fst kv) || has_nul (snd kv)) env
          then Some (ValueError (lit "embedded null byte"))
          else if too_big room cmd env
          then Some (OSError (lit "Argument list too long"))
          else None
      end
  end.

Section Generator.

(** The external generator: from its argument vector, its environment and
    the file system it starts on, the file system it leaves and what
    [subprocess.run] captures. *)
Variable cli : list str -> dict -> node -> node * CompletedProcess.

(** [subprocess.run(cmd, capture_output=True, text=True, env=env)]: the
    process is started if it can be, runs, and what it wrote is decoded. *)
Definition subprocess_run (cmd : list str) (env : dict) : M RunResult :=
  fun w =>
    match launch_error (arg_max w) cmd env with
    | Some e => (Raise e, w)
    | None =>
        let (r, result) := cli cmd env (fs w) in
        let w' := set_fs (emit (EvRun cmd env (fs w)) w) r in
        match text_of (raw_stdout result), text_of (raw_stderr result) with
        | Some out, Some err => (Ok (mkRun out err (returncode result)), w')
        | _, _ => (Raise UnicodeDecodeError, w')
        end
    end.

(** Lines 98-163: the command (by [build_cmd]), the run of the CLI, and
    the result. *)
Definition generate_tail (customer_name sap_version : str)
    (quote_fields : list str) (custom_fields : option dict)
    (special_logic resume_session_id : option str) (fork_session : bool)
    (config_paths : list str) : M GenerationResult :=
  let cmd := build_cmd customer_name sap_version config_paths quote_fields
               custom_fields special_logic resume_session_id fork_session in
  print (lit "Starting SAP endpoint generation for " ++ customer_name ++ lit "...") ;;;
  print (lit "Command: " ++ join (lit " ") cmd) ;;;
  key <- environ_get API_KEY ;;
  env <- (fun w => (Ok (set_entry API_KEY key (environ w)), w)) ;;
  result <- subprocess_run cmd env ;;
  let session_id := parse_session_id (run_stdout result) in
  let output_dir := customer_output_dir customer_name in
  found <- tries (fun r => Path_exists r output_dir) ;;
  generated_files <- (if found
                      then tries (fun r => relative_files r (parse_path OUTPUT)
                                             (rglob r output_dir))
                      else ret []) ;;
  volume_commit ;;;
  ret (mkResult session_id (path_str output_dir) generated_files
         (run_stdout result) (run_stderr result) (run_returncode result)).

(** The body of the [with] block: lines 87-96, the staging of the config
    files, then the rest. *)
Definition generate_body (customer_name sap_version : str)
    (config_files_content : dict) (quote_fields : list str)
    (custom_fields : option dict) (special_logic resume_session_id : option str)
    (fork_session : bool) (temp_dir : Path) : M GenerationResult :=
  let temp_path := temp_dir in
  let config_dir := joinpath temp_path (lit "config") in
  mkdir config_dir ;;;
  config_paths <- write_config_files config_dir config_files_content ;;
  generate_tail customer_name sap_version quote_fields custom_fields
    special_logic resume_session_id fork_session config_paths.

Definition generate_endpoint (customer_name sap_version : str)
    (config_files_content : dict) (quote_fields : list str)
    (custom_fields : option dict) (special_logic resume_session_id : option str)
    (fork_session : bool) : M GenerationResult :=
  with_TemporaryDirectory
    (generate_body customer_name sap_version config_files_content quote_fields
       custom_fields special_logic resume_session_id fork_session).

End Generator.

Section Facade.

(** The values of the request body are passed on as they are; [py_None]
    and [py_False] are the two defaults. *)
Variable value : Type.
Variables py_None py_False : value.
Variable R : Type.

(** [generate_endpoint.remote], the call into the deployed function. *)
Variable remote : value -> value -> value -> value ->
                  value -> value -> value -> value -> M R.

(** [item[key]] *)
Definition getitem (item : list (str * value)) (key : str) : M value :=
  match assoc key item with
  | Some v => ret v
  | None => raise (KeyError key)
  end.

(** [item.get(key, default)] *)
Definition get_default (item : list (str * value)) (key : str) (default : value) : value :=
  match assoc key item with
  | Some v => v
  | None => default
  end.

Definition api_generate (item : list (str * value)) : M R :=
  customer_name <- getitem item (lit "customer_name") ;;
  sap_version <- getitem item (lit "sap_version") ;;
  config_files <- getitem item (lit "config_files") ;;
  quote_fields <- getitem item (lit "quote_fields") ;;
  result <- remote customer_name sap_version config_files quote_fields
              (get_default item (lit "custom_fields") py_None)
              (get_default item (lit "special_logic") py_None)
              (get_default item (lit "resume_session_id") py_None)
              (get_default item (lit "fork_session") py_False) ;;
  ret result.

End Facade.

Arguments getitem {value} item key.
Arguments get_default {value} item key default.
Arguments api_generate {value} py_None py_False {R} remote item.

(** ** The values of a request body *)

(** A JSON value as the facade receives it (a number by its literal). *)
#[warnings="-register-all"]
Inductive json :=
| JNull
| JBool (b : bool)
| JNumber (literal : str)
| JString (s : str)
| JArray (items : list json)
| JObject (members : list (str * json)).

(** The values that the annotated parameters of [generate_endpoint] are
    received as. *)
Definition json_of_strings (l : list str) : json := JArray (map JString l).

Definition json_of_dict (d : dict) : json :=
  JObject (map (fun kv => (fst kv, JString (snd kv))) d).

Definition json_of_option {A} (f : A -> json) (o : option A) : json :=
  match o with Some x => f x | None => JNull end.

(** ** Well-formed trees, and what a directory holds *)

(** A name a directory entry can have. *)
Definition valid_name (x : str) : bool :=
  nonempty x && negb (str_eqb x DOT) && negb (str_eqb x DOTDOT) &&
  negb (contains SLASH x).



(** The regular files, and the directories, strictly below a node. *)
Fixpoint regular_files (n : node) : nat :=
  match n with
  | File _ _ => 0
  | Dir _ es =>
      list_sum (map (fun e => match e with
                              | (_, c) => if is_dir_node c then regular_files c else 1
                              end) es)
  end.

Fixpoint subdirectories (n : node) : nat :=
  match n with
  | File _ _ => 0
  | Dir _ es =>
      list_sum (map (fun e => match e with
                              | (_, c) => if is_dir_node c then S (subdirectories c) else 0
                              end) es)
  end.

(** The components of a path that go down only. *)
Definition plain (ps : list str) : bool :=
  forallb (fun x => negb (str_eqb x DOTDOT)) ps.

(** A path that the system accepts whatever the tree: it can be
    converted, has fewer than [PATH_MAX] bytes, and none of its names has
    more than [NAME_MAX]. *)
Definition short_name (x : str) : bool := (fs_length x <=? NAME_MAX)%N.

Definition path_ok (p : Path) : bool :=
  fs_encodable (path_str p) && negb (has_nul (path_str p)) &&
  (fs_length (path_str p) <? PATH_MAX)%N && forallb short_name (parts p).

(** A config mapping that can be staged in [config_dir]: every key is the
    name of a file there, on a path that the system accepts, and every
    content is text that UTF-8 encodes. *)
Definition stageable (config_dir : Path) (cfg : dict) : bool :=
  forallb (fun kv => valid_name (fst kv) && path_ok (child config_dir (fst kv)) &&
                     utf8_encodable (snd kv)) cfg.

(** The two lines that [generate_endpoint] prints. *)
Definition start_line (customer_name : str) : str :=
  lit "Starting SAP endpoint generation for " ++ customer_name ++ lit "...".

Definition command_line (cmd : list str) : str :=
  lit "Command: " ++ join (lit " ") cmd.

(** A command that can be printed and started in the world [w]. *)
Definition startable (w : world) (customer_name : str) (cmd : list str) : bool :=
  stdout_encodable w (start_line customer_name) &&
  stdout_encodable w (command_line cmd) &&
  match launch_error (arg_max w) cmd (environ w) with
  | None => true
  | Some _ => false
  end.







(** What a file operation leaves alone: everything but the file system
    and the count of drawn names. *)
Definition same_process (w w' : world) : Prop :=
  environ w' = environ w /\ clock w' = clock w /\ tempdir w' = tempdir w /\
  rng w' = rng w /\ log w' = log w /\ stdout_escapes w' = stdout_escapes w /\
  arg_max w' = arg_max w.

(** The events that a call from the world [w] has added to the log. *)
Definition events_of {A} (w : world) (out : outcome A * world) : list event :=
  skipn (length (log w)) (log (snd out)).

(** The leading and the trailing whitespace of [s] removed gives [t]. *)
Definition stripped (s t : str) : Prop :=
  exists l r,
    s = l ++ t ++ r /\ forallb isspace l = true /\ forallb isspace r = true /\
    match t with
    | [] => True
    | c :: _ => isspace c = false /\ isspace (last t c) = false
    end.


(** The entries that staging a mapping at time [now] makes. *)
Definition staged (now : Z) (items : dict) : list (str * node) :=
  map (fun kv => (fst kv, File now (snd kv))) items.





(** The record [list_customers] makes of a directory entry. *)
Definition record_of (e : str * node) : CustomerRecord :=
  match e with
  | (x, Dir t es) => mkCustomer x t (length (rglob_rel (Dir t es)))
  | (x, File t _) => mkCustomer x t 0
  end.

(** ** A sample deployment *)

(** A container with an empty [/tmp] and a store of two customers and a
    stray file. *)
Definition sample_acme : node :=
  Dir 10 [ (lit "src", Dir 11 [ (lit "a.ts", File 12 (lit "export {}")) ]);
           (lit "README", File 13 (lit "hello")) ].

Definition sample_fs : node :=
  Dir 0
    [ (lit "tmp", Dir 1 []);
      (lit "output",
       Dir 2
         [ (lit "acme", sample_acme);
           (lit "globex", Dir 20 [ (lit "x", File 21 (lit "X")) ]);
           (lit "notes.txt", File 5 (lit "n")) ]) ].

(** A generator that prints a session line with blanks around the
    identifier and a Windows line end, touches nothing and exits with
    code 3. *)
Definition sample_cli (cmd : list str) (env : dict) (r : node) : node * CompletedProcess :=
  (r, mkCompleted
        (list_byte_of_string "starting" ++ [x0d; x0a] ++
         list_byte_of_string "Session ID:   abc123 " ++ [x09; x0a] ++
         list_byte_of_string "done")
        (list_byte_of_string "warning") 3).

(** Standard output under the C locale, and the room that the default
    stack limit of 8 MiB leaves to the arguments of [/usr/bin/node]. *)
Definition sample_world : world :=
  mkWorld sample_fs [(API_KEY, lit "sk-test")] 100 (parse_path (lit "/tmp"))
    (fun _ => lit "k3x9_a0b") 0 [] true 2097138.

(** The scratch directory [mkdtemp] makes in the sample world. *)
Definition sample_scratch : Path :=
  child (parse_path (lit "/tmp")) (lit "tmpk3x9_a0b").

Definition sample_config : dict :=
  [(lit "VBAK_structure.txt", lit "Table: VBAK"); (lit "custom_fields.txt", lit "ZZPRIORITY")].

Definition sample_run : outcome GenerationResult * world :=
  generate_endpoint sample_cli (lit "acme") (lit "ECC6") sample_config
    [lit "customer_id"; lit "quote_date"; lit "total_amount"]
    None None None false sample_world.

Definition sample_result : GenerationResult :=
  mkResult (Some (lit "abc123")) (lit "/output/acme")
    [lit "acme/README"; lit "acme/src/a.ts"]
    (lit "starting" ++ NEWLINE ++ lit "Session ID:   abc123 " ++ [9%N] ++ NEWLINE ++
     lit "done")
    (lit "warning") 3.

(** The events of the sample run. *)
Definition sample_events : list event :=
  Eval vm_compute in events_of sample_world sample_run.

(** A generator that prints the marker twice on a line. *)
Definition two_marker_cli (cmd : list str) (env : dict) (r : node) : node * CompletedProcess :=
  (r, mkCompleted (list_byte_of_string "Session ID: a Session ID: b") [] 0).


Definition keyless_world : world :=
  mkWorld sample_fs [] 100 (parse_path (lit "/tmp"))
    (fun _ => lit "k3x9_a0b") 0 [] true 2097138.

(** The store of the sample with modification times of the year 2023, on
    which the archive can be built. *)
Definition recent_acme : node :=
  Dir 1700000010
    [ (lit "src", Dir 1700000011 [ (lit "a.ts", File 1700000012 (lit "export {}")) ]);
      (lit "README", File 1700000013 (lit "hello")) ].

Definition recent_world : world :=
  mkWorld (Dir 1700000000 [ (lit "output", Dir 1700000002 [ (lit "acme", recent_acme) ]) ])
    [] 1700000100 (parse_path (lit "/tmp")) (fun _ => lit "k3x9_a0b") 0 [] true 2097138.

(** ** Facts about strings *)

Lemma str_eqb_refl (a : str) : str_eqb a a = true.
Proof.
  induction a as [|x a IH]; simpl; [reflexivity|].
  now rewrite N.eqb_refl, IH.
Qed.

Lemma str_eqb_eq (a b : str) : str_eqb a b = true <-> a = b.
Proof.
  split.
  - revert b; induction a as [|x a IH]; intros [|y b] H; simpl in H;
      try discriminate; [reflexivity|].
    apply andb_true_iff in H as [Hx Ha].
    apply N.eqb_eq in Hx. now rewrite Hx, (IH b Ha).
  - intros ->. apply str_eqb_refl.
Qed.

Lemma str_eqb_neq (a b : str) : str_eqb a b = false <-> a <> b.
Proof.
  rewrite <- str_eqb_eq. now destruct (str_eqb a b).
Qed.

Lemma starts_with_app (p t : str) : starts_with p (p ++ t) = true.
Proof.
  induction p as [|x p IH]; simpl; [reflexivity|].
  now rewrite N.eqb_refl, IH.
Qed.

Lemma starts_with_inv (p s : str) :
  starts_with p s = true -> exists t, s = p ++ t.
Proof.
  revert s; induction p as [|x p IH]; intros s H.
  - now exists s.
  - destruct s as [|y s]; simpl in H; [discriminate|].
    apply andb_true_iff in H as [Hx Hp].
    apply N.eqb_eq in Hx; subst y.
    destruct (IH s Hp) as [t ->]. now exists t.
Qed.

Lemma contains_prefix (sub s : str) :
  starts_with sub s = true -> contains sub s = true.
Proof.
  intros H. destruct s; simpl; rewrite H; reflexivity.
Qed.

Lemma contains_app (sub a b : str) : contains sub (a ++ sub ++ b) = true.
Proof.
  induction a as [|x a IH].
  - apply contains_prefix. apply (starts_with_app sub b).
  - change ((x :: a) ++ sub ++ b) with (x :: (a ++ sub ++ b)).
    cbn [contains]. rewrite IH. apply orb_true_r.
Qed.

Lemma contains_inv (sub s : str) :
  contains sub s = true -> exists a b, s = a ++ sub ++ b.
Proof.
  induction s as [|x s IH]; simpl; intros H.
  - rewrite orb_false_r in H. apply starts_with_inv in H as [t Ht].
    exists [], t. exact Ht.
  - apply orb_true_iff in H as [H|H].
    + apply starts_with_inv in H as [t Ht]. exists [], t. exact Ht.
    + destruct (IH H) as (a & b & ->). now exists (x :: a), b.
Qed.

Lemma contains_absent (sub s a b : str) :
  contains sub s = false -> s <> a ++ sub ++ b.
Proof.
  intros H ->. now rewrite contains_app in H.
Qed.

Lemma contains_tail (sub : str) (c : N) (s : str) :
  contains sub (c :: s) = starts_with sub (c :: s) || contains sub s.
Proof. reflexivity. Qed.

(** *** The equations of [split] *)

Lemma split_aux_skip (sep x s : str) :
  split_aux sep (length x) (x ++ s) = split_aux sep 0 s.
Proof.
  induction x as [|c x IH]; [reflexivity | exact IH].
Qed.

Lemma split_nil (sep : str) : split sep [] = [[]].
Proof. reflexivity. Qed.

Lemma split_hit (sep s : str) :
  sep <> [] -> split sep (sep ++ s) = [] :: split sep s.
Proof.
  intros Hne. destruct sep as [|c sep']; [contradiction|].
  unfold split.
  assert (Hs : starts_with (c :: sep') (c :: sep' ++ s) = true)
    by apply (starts_with_app (c :: sep') s).
  change ((c :: sep') ++ s) with (c :: (sep' ++ s)).
  cbn [split_aux]. rewrite Hs.
  replace (length (c :: sep') - 1) with (length sep') by (simpl; lia).
  rewrite split_aux_skip.
  now destruct (split_aux (c :: sep') 0 s).
Qed.

Lemma split_miss (sep : str) (c : N) (s : str) :
  starts_with sep (c :: s) = false ->
  split sep (c :: s) = (c :: hd [] (split sep s)) :: tl (split sep s).
Proof.
  intros H. unfold split. cbn [split_aux]. rewrite H.
  now destruct (split_aux sep 0 s).
Qed.

Lemma split_absent (sep s : str) :
  contains sep s = false -> split sep s = [s].
Proof.
  induction s as [|c s IH]; intros H.
  - reflexivity.
  - rewrite contains_tail in H. apply orb_false_iff in H as [H1 H2].
    rewrite (split_miss _ _ _ H1), (IH H2). reflexivity.
Qed.

(** When the separator occurs, the last piece is what follows an
    occurrence of it and holds no occurrence itself. *)
Lemma split_present (sep : str) :
  sep <> [] ->
  forall s, contains sep s = true ->
  exists pre post front,
    s = pre ++ sep ++ post /\ contains sep post = false /\
    split sep s = front ++ [post] /\ front <> [].
Proof.
  intros Hne s.
  remember (length s) as n eqn:Hn.
  revert s Hn. induction n as [n IH] using lt_wf_ind. intros s Hn Hc.
  destruct s as [|c s].
  - simpl in Hc. rewrite orb_false_r in Hc.
    destruct sep; [contradiction | discriminate].
  - destruct (starts_with sep (c :: s)) eqn:Hs.
    + apply starts_with_inv in Hs as [t Ht]. rewrite Ht.
      rewrite (split_hit sep t Hne).
      destruct (contains sep t) eqn:Hct.
      * assert (Hlt : length t < n).
        { subst n. rewrite Ht, length_app.
          destruct sep; [contradiction | simpl; lia]. }
        destruct (IH _ Hlt t eq_refl Hct) as (pre & post & front & E & Hp & Hsp & Hf).
        exists (sep ++ pre), post, ([] :: front). repeat split.
        -- rewrite E at 1. now rewrite <- app_assoc.
        -- exact Hp.
        -- now rewrite Hsp.
        -- discriminate.
      * exists [], t, [[]]. repeat split.
        -- exact Hct.
        -- now rewrite (split_absent _ _ Hct).
        -- discriminate.
    + rewrite contains_tail, Hs in Hc. simpl in Hc.
      assert (Hlt : length s < n) by (subst n; simpl; lia).
      destruct (IH _ Hlt s eq_refl Hc) as (pre & post & front & E & Hp & Hsp & Hf).
      rewrite (split_miss _ _ _ Hs), Hsp.
      destruct front as [|f front]; [contradiction|].
      exists (c :: pre), post, ((c :: f) :: front). repeat split.
      * now rewrite E.
      * exact Hp.
      * discriminate.
Qed.


(** *** The session marker *)

Lemma marker_value :
  SESSION_MARKER = [83; 101; 115; 115; 105; 111; 110; 32; 73; 68; 58]%N.
Proof. reflexivity. Qed.

Lemma marker_nonempty : SESSION_MARKER <> [].
Proof. discriminate. Qed.

(** No proper suffix of the marker starts like the marker: two occurrences
    never overlap. *)
Lemma marker_unbordered (d e a b : str) :
  SESSION_MARKER = d ++ e -> SESSION_MARKER ++ b = e ++ a ->
  d = [] \/ e = [].
Proof.
  rewrite marker_value. intros HM HE.
  destruct d as [|d0 d]; [now left|]. right.
  simpl in HM. injection HM as _ HM.
  repeat (destruct d as [|? d]; simpl in HM;
          [ subst e; simpl in HE; discriminate HE
          | try (injection HM as _ HM) ]).
  all: try (destruct e; [reflexivity | discriminate HM]).
  all: destruct d; simpl in HM; try discriminate HM;
       destruct e; [reflexivity | discriminate HM].
Qed.

Lemma marker_shift (d a b : str) :
  SESSION_MARKER ++ a = d ++ SESSION_MARKER ++ b ->
  contains SESSION_MARKER a = false -> d = [].
Proof.
  intros E Ha.
  destruct (app_eq_app _ _ _ _ E) as [e [[E1 E2] | [E1 E2]]].
  - (* SESSION_MARKER = d ++ e, SESSION_MARKER ++ b = e ++ a *)
    destruct (marker_unbordered d e a b E1 E2) as [Hd | He]; [exact Hd|].
    subst e. simpl in E2. exfalso.
    apply (contains_absent SESSION_MARKER a [] b Ha). now rewrite <- E2.
  - exfalso. apply (contains_absent SESSION_MARKER a e b Ha). exact E2.
Qed.

Lemma marker_suffix_unique (pre post pre' post' : str) :
  pre ++ SESSION_MARKER ++ post = pre' ++ SESSION_MARKER ++ post' ->
  contains SESSION_MARKER post = false ->
  contains SESSION_MARKER post' = false ->
  post = post'.
Proof.
  intros E H H'.
  destruct (app_eq_app _ _ _ _ E) as [d [[E1 E2] | [E1 E2]]].
  - assert (d = []) by (apply (marker_shift d post' post); assumption).
    subst d. simpl in E2. congruence.
  - assert (d = []) by (apply (marker_shift d post post'); assumption).
    subst d. simpl in E2. congruence.
Qed.

(** [line.split("Session ID:")[-1]] is the text after the last occurrence
    of the marker. *)
Lemma marker_last_piece (pre post : str) :
  contains SESSION_MARKER post = false ->
  last (split SESSION_MARKER (pre ++ SESSION_MARKER ++ post)) [] = post.
Proof.
  intros Hpost.
  destruct (split_present SESSION_MARKER marker_nonempty
              (pre ++ SESSION_MARKER ++ post) (contains_app _ _ _))
    as (pre' & post' & front & E & Hp & Hs & _).
  rewrite Hs, last_last. symmetry.
  exact (marker_suffix_unique _ _ _ _ E Hpost Hp).
Qed.

Lemma scan_session_id_none (lines : list str) :
  (forall line, In line lines -> contains SESSION_MARKER line = false) ->
  scan_session_id lines = None.
Proof.
  induction lines as [|l lines IH]; intros H; simpl; [reflexivity|].
  rewrite (H l (or_introl eq_refl)). apply IH.
  intros line Hin. apply H. now right.
Qed.

Lemma scan_session_id_first (before : list str) (line : str) (after : list str) :
  (forall l, In l before -> contains SESSION_MARKER l = false) ->
  contains SESSION_MARKER line = true ->
  scan_session_id (before ++ line :: after)
  = Some (strip (last (split SESSION_MARKER line) [])).
Proof.
  induction before as [|l before IH]; intros H Hl; simpl.
  - now rewrite Hl.
  - rewrite (H l (or_introl eq_refl)). apply IH; [|exact Hl].
    intros l' Hin. apply H. now right.
Qed.

(** ** Facts about dictionaries and trees *)

Lemma node_induction (P : node -> Prop) :
  (forall t d, P (File t d)) ->
  (forall t es, Forall (fun e => P (snd e)) es -> P (Dir t es)) ->
  forall n, P n.
Proof.
  intros HF HD. fix IH 1. intros [t d | t es]; [apply HF|].
  apply HD. induction es as [|[x c] es IHes]; constructor.
  - apply IH.
  - exact IHes.
Qed.


Lemma assoc_None {A} (k : str) (l : list (str * A)) :
  assoc k l = None <-> ~ In k (map fst l).
Proof.
  induction l as [|[k' v'] l IH]; simpl; [tauto|].
  destruct (str_eqb k' k) eqn:E.
  - apply str_eqb_eq in E. split; [discriminate | intros H; exfalso; apply H; now left].
  - apply str_eqb_neq in E. rewrite IH. tauto.
Qed.




Lemma set_entry_fresh {A} (k : str) (v : A) (l : list (str * A)) :
  assoc k l = None -> set_entry k v l = l ++ [(k, v)].
Proof.
  induction l as [|[k' v'] l IH]; simpl; [reflexivity|].
  destruct (str_eqb k' k); [discriminate|]. intros H. now rewrite IH.
Qed.

Lemma set_entry_same (k v : str) (l : dict) :
  assoc k l = Some v -> set_entry k v l = l.
Proof.
  induction l as [|[k' v'] l IH]; simpl; [discriminate|].
  destruct (str_eqb k' k); [now intros [= ->]|]. intros H. now rewrite IH.
Qed.

Lemma assoc_set_entry {A} (k : str) (v : A) (l : list (str * A)) :
  assoc k (set_entry k v l) = Some v.
Proof.
  induction l as [|[k' v'] l IH]; simpl.
  - now rewrite str_eqb_refl.
  - destruct (str_eqb k' k) eqn:E; simpl; rewrite E; [reflexivity | exact IH].
Qed.

Lemma assoc_update_entry {A} (k : str) (f : A -> A) (l : list (str * A)) :
  assoc k (update_entry k f l) = option_map f (assoc k l).
Proof.
  induction l as [|[k' v'] l IH]; simpl; [reflexivity|].
  destruct (str_eqb k' k) eqn:E; simpl; rewrite E; [reflexivity | exact IH].
Qed.

Lemma get_app (n : node) (p q : list str) :
  get n (p ++ q) = match get n p with Some m => get m q | None => None end.
Proof.
  revert n; induction p as [|x p IH]; intros n; simpl; [reflexivity|].
  destruct n as [t d | t es]; [reflexivity|].
  destruct (assoc x es); [apply IH | reflexivity].
Qed.

Lemma get_update (n : node) (p : list str) (f : node -> node) (m : node) :
  get n p = Some m -> get (update n p f) p = Some (f m).
Proof.
  revert n; induction p as [|x p IH]; intros n; simpl.
  - now intros [= ->].
  - destruct n as [t d | t es]; [discriminate|].
    rewrite assoc_update_entry.
    destruct (assoc x es) as [c|]; [|discriminate]. simpl. apply IH.
Qed.

(** The directory in which an entry was created, and the entry. *)
Lemma get_created (r : node) (c : list str) (now t : Z)
    (es : list (str * node)) (x : str) (new : node) :
  get r c = Some (Dir t es) -> assoc x es = None ->
  get (update r c (create now x new)) c = Some (Dir now (es ++ [(x, new)])) /\
  get (update r c (create now x new)) (c ++ [x]) = Some new.
Proof.
  intros Hg Ha.
  assert (H : get (update r c (create now x new)) c
              = Some (Dir now (es ++ [(x, new)]))).
  { rewrite (get_update _ _ _ _ Hg). simpl. now rewrite (set_entry_fresh _ _ _ Ha). }
  split; [exact H|].
  rewrite get_app, H. simpl.
  rewrite <- (set_entry_fresh _ _ _ Ha), assoc_set_entry. reflexivity.
Qed.



Lemma valid_name_plain (x : str) :
  valid_name x = true -> str_eqb x DOTDOT = false.
Proof.
  unfold valid_name. rewrite !andb_true_iff, !negb_true_iff. tauto.
Qed.

Lemma valid_name_no_slash (k : str) :
  valid_name k = true -> contains SLASH k = false.
Proof.
  unfold valid_name. rewrite !andb_true_iff, !negb_true_iff. tauto.
Qed.



Lemma plain_app (p q : list str) : plain (p ++ q) = plain p && plain q.
Proof. unfold plain. apply forallb_app. Qed.

(** *** Path resolution *)

Lemma walk_app (r : node) (cur p q : list str) :
  walk r cur (p ++ q)
  = match walk r cur p with Hit c => walk r c q | Err e => Err e end.
Proof.
  revert cur; induction p as [|x p IH]; intros cur; simpl; [reflexivity|].
  destruct (get r cur) as [[t d | t es]|]; try reflexivity.
  destruct (str_eqb x DOTDOT); [apply IH|].
  destruct (assoc x es); [apply IH | reflexivity].
Qed.

Lemma walk_plain (r : node) (cur ps : list str) (n : node) :
  plain ps = true -> get r (cur ++ ps) = Some n ->
  walk r cur ps = Hit (cur ++ ps).
Proof.
  revert cur; induction ps as [|x ps IH]; intros cur Hp Hg; simpl.
  - now rewrite app_nil_r.
  - simpl in Hp. apply andb_true_iff in Hp as [Hx Hp].
    apply negb_true_iff in Hx. rewrite Hx.
    assert (Hg' : get r ((cur ++ [x]) ++ ps) = Some n)
      by now rewrite <- app_assoc.
    rewrite get_app in Hg.
    destruct (get r cur) as [[t d | t es]|] eqn:G; simpl in Hg; try discriminate.
    destruct (assoc x es) as [c|] eqn:E; [|discriminate].
    rewrite (IH (cur ++ [x]) Hp Hg'). now rewrite <- app_assoc.
Qed.

Lemma walk_plain_inv (r : node) (cur ps c : list str) :
  plain ps = true -> walk r cur ps = Hit c -> c = cur ++ ps.
Proof.
  revert cur; induction ps as [|x ps IH]; intros cur Hp; simpl.
  - intros [= ->]. now rewrite app_nil_r.
  - simpl in Hp. apply andb_true_iff in Hp as [Hx Hp].
    apply negb_true_iff in Hx. rewrite Hx.
    destruct (get r cur) as [[t d | t es]|]; try discriminate.
    destruct (assoc x es); [|discriminate].
    intros H. rewrite (IH _ Hp H). now rewrite <- app_assoc.
Qed.

Lemma walk_plain_get (r : node) (cur ps c : list str) (n0 : node) :
  plain ps = true -> get r cur = Some n0 -> walk r cur ps = Hit c ->
  exists n, get r c = Some n.
Proof.
  revert cur n0; induction ps as [|x ps IH]; intros cur n0 Hp Hg; simpl.
  - intros [= <-]. now exists n0.
  - simpl in Hp. apply andb_true_iff in Hp as [Hx Hp].
    apply negb_true_iff in Hx. rewrite Hx, Hg.
    destruct n0 as [t d | t es]; [discriminate|].
    destruct (assoc x es) as [ch|] eqn:E; [|discriminate].
    apply (IH (cur ++ [x]) ch Hp).
    rewrite get_app, Hg. simpl. now rewrite E.
Qed.


Lemma stat_plain (r : node) (p : Path) (n : node) :
  plain (parts p) = true -> get r (parts p) = Some n -> stat r p = Hit n.
Proof.
  intros Hp Hg. unfold stat, realpath.
  rewrite (walk_plain r [] (parts p) _ Hp Hg). simpl. now rewrite Hg.
Qed.

Lemma realpath_plain (r : node) (p : Path) (n : node) :
  plain (parts p) = true -> get r (parts p) = Some n ->
  realpath r p = Hit (parts p).
Proof.
  intros Hp Hg. unfold realpath. exact (walk_plain r [] (parts p) _ Hp Hg).
Qed.

Lemma stat_plain_inv (r : node) (p : Path) (n : node) :
  plain (parts p) = true -> stat r p = Hit n -> get r (parts p) = Some n.
Proof.
  unfold stat, realpath. intros Hp.
  destruct (walk r [] (parts p)) as [c|e] eqn:W; [|discriminate].
  apply (walk_plain_inv _ _ _ _ Hp) in W. simpl in W. subst c.
  destruct (get r (parts p)); [now intros [= ->] | discriminate].
Qed.


(** A missing last component, in a directory that is there. *)
Lemma stat_missing (r : node) (p : Path) (x : str) (t : Z) (es : list (str * node)) :
  plain (parts p) = true -> str_eqb x DOTDOT = false ->
  get r (parts p) = Some (Dir t es) -> assoc x es = None ->
  stat r (child p x) = Err ENOENT.
Proof.
  intros Hp Hx Hg Ha. unfold stat, realpath, child. simpl.
  rewrite walk_app, (walk_plain r [] (parts p) _ Hp Hg). simpl.
  now rewrite Hg, Hx, Ha.
Qed.

(** What the state of a directory is when an entry of it is found
    missing. *)
Lemma stat_missing_inv (r : node) (p : Path) (x : str) (c : list str) :
  plain (parts p) = true -> str_eqb x DOTDOT = false ->
  stat r (child p x) = Err ENOENT -> realpath r p = Hit c ->
  exists t es, get r (parts p) = Some (Dir t es) /\ assoc x es = None.
Proof.
  intros Hp Hx Hs Hr.
  pose proof (walk_plain_inv r [] (parts p) c Hp Hr) as Hc. simpl in Hc. subst c.
  destruct (walk_plain_get r [] (parts p) (parts p) r Hp eq_refl Hr) as [n Hn].
  unfold stat, realpath, child in Hs. simpl in Hs.
  unfold realpath in Hr. rewrite walk_app, Hr in Hs. simpl in Hs.
  rewrite Hn, Hx in Hs.
  destruct n as [t d | t es]; [discriminate|].
  destruct (assoc x es) as [ch|] eqn:E.
  - assert (G : get r (parts p ++ [x]) = Some ch)
      by (rewrite get_app, Hn; simpl; now rewrite E).
    rewrite G in Hs. discriminate.
  - now exists t, es.
Qed.

Lemma parent_child (p : Path) (x : str) : parent (child p x) = p.
Proof.
  unfold parent, child. simpl. rewrite removelast_last. now destruct p.
Qed.

Lemma path_name_child (p : Path) (x : str) : path_name (child p x) = x.
Proof.
  unfold path_name, child. simpl. apply last_last.
Qed.

Lemma plain_child (p : Path) (x : str) :
  plain (parts p) = true -> str_eqb x DOTDOT = false ->
  plain (parts (child p x)) = true.
Proof.
  intros Hp Hx. unfold child. simpl. rewrite plain_app, Hp.
  unfold plain. simpl. now rewrite Hx.
Qed.

(** *** Paths *)


Lemma parse_path_valid (k : str) :
  valid_name k = true -> parse_path k = mkPath [] [k].
Proof.
  intros Hv. pose proof (valid_name_no_slash _ Hv) as Hs.
  unfold valid_name in Hv. rewrite !andb_true_iff, !negb_true_iff in Hv.
  destruct Hv as [[[Hne Hdot] _] _].
  unfold parse_path, splitroot.
  destruct k as [|c k]; [discriminate|].
  assert (Hc : (c =? 47)%N = false).
  { simpl in Hs. apply orb_false_iff in Hs as [Hs _].
    rewrite andb_true_r in Hs. now rewrite N.eqb_sym. }
  rewrite Hc, (split_absent _ _ Hs). simpl filter.
  unfold is_component. rewrite Hdot. reflexivity.
Qed.

Lemma joinpath_valid (p : Path) (k : str) :
  valid_name k = true -> joinpath p k = child p k.
Proof.
  intros Hv. unfold joinpath. now rewrite (parse_path_valid _ Hv).
Qed.

Lemma joinpath_config (p : Path) : joinpath p (lit "config") = child p (lit "config").
Proof. reflexivity. Qed.







(** *** What [rglob] yields *)



(** [len(list(d.rglob("*")))] counts the directories below [d] as well as
    the regular files. *)
Lemma rglob_rel_length (d : node) :
  length (rglob_rel d) = regular_files d + subdirectories d.
Proof.
  induction d as [t dt | t es IH] using node_induction; [reflexivity|].
  cbn [rglob_rel regular_files subdirectories].
  rewrite length_app, length_map.
  induction es as [|[x c] es IHes]; [reflexivity|].
  inversion IH as [|? ? Hc Hes]; subst. cbn [snd] in Hc.
  specialize (IHes Hes). unfold list_sum in *.
  cbn [flat_map map fold_right length]. rewrite length_app.
  destruct c as [tc dc | tc esc]; cbn [is_dir_node];
    [cbn [length] | rewrite length_map, Hc]; lia.
Qed.

(** ** Facts about computations *)

Lemma bind_Ok {A B} (m : M A) (k : A -> M B) (w w' : world) (b : B) :
  bind m k w = (Ok b, w') ->
  exists a w1, m w = (Ok a, w1) /\ k a w1 = (Ok b, w').
Proof.
  unfold bind. destruct (m w) as [[a|e] w1]; [|discriminate].
  intros H. now exists a, w1.
Qed.

Lemma bind_ret {A} (m : M A) (w : world) :
  bind m (fun a => ret a) w = m w.
Proof.
  unfold bind, ret. now destruct (m w) as [[a|e] w1].
Qed.

Lemma environ_emit (e : event) (w : world) : environ (emit e w) = environ w.
Proof. reflexivity. Qed.

Lemma fs_emit (e : event) (w : world) : fs (emit e w) = fs w.
Proof. reflexivity. Qed.

Tactic Notation "bind_inv" hyp(H) "as" ident(a) ident(w1) ident(H1) :=
  apply bind_Ok in H; destruct H as (a & w1 & H1 & H).

(** ** Sorting *)





(** ** The customer lister *)


(** The count [list_customers] reports for an entry: everything below it,
    directories included. *)
Lemma file_count_value (e : str * node) :
  file_count (record_of e) = regular_files (snd e) + subdirectories (snd e).
Proof.
  destruct e as [x [t d | t es]]; [reflexivity|].
  apply rglob_rel_length.
Qed.


(** ** What the system accepts *)

Lemma fs_encodable_app (a b : str) :
  fs_encodable (a ++ b) = fs_encodable a && fs_encodable b.
Proof. apply forallb_app. Qed.

Lemma utf8_encodable_app (a b : str) :
  utf8_encodable (a ++ b) = utf8_encodable a && utf8_encodable b.
Proof. apply forallb_app. Qed.

Lemma has_nul_app (a b : str) : has_nul (a ++ b) = has_nul a || has_nul b.
Proof. apply existsb_app. Qed.

Lemma fs_length_app (a b : str) : fs_length (a ++ b) = (fs_length a + fs_length b)%N.
Proof.
  unfold fs_length. induction a as [|c a IH]; simpl; [reflexivity|].
  rewrite IH. lia.
Qed.

Lemma utf8_fs_encodable (s : str) : utf8_encodable s = true -> fs_encodable s = true.
Proof.
  unfold utf8_encodable, fs_encodable. rewrite !forallb_forall.
  intros H c Hc. now rewrite (H c Hc).
Qed.

Lemma long_name_short (r : node) (ps cur : list str) :
  forallb short_name ps = true -> long_name r cur ps = false.
Proof.
  revert cur. induction ps as [|x ps IH]; intros cur H; simpl; [reflexivity|].
  simpl in H. apply andb_true_iff in H as [Hx H].
  destruct (get r cur) as [[t d | t es]|]; try reflexivity.
  destruct (str_eqb x DOTDOT); [now apply IH|].
  unfold short_name in Hx. apply N.leb_le in Hx.
  destruct (N.ltb_spec NAME_MAX (fs_length x)) as [Hlt|_]; [lia|].
  destruct (assoc x es); [now apply IH | reflexivity].
Qed.

(** A path that is [path_ok] meets no error of the system, in any tree. *)
Lemma path_ok_error (r : node) (p : Path) :
  path_ok p = true -> path_error r p = None.
Proof.
  unfold path_ok, path_error, fsconvert.
  rewrite !andb_true_iff, negb_true_iff. intros [[[He Hn] Hl] Hs].
  rewrite He, Hn. simpl.
  apply N.ltb_lt in Hl.
  destruct (N.leb_spec PATH_MAX (fs_length (path_str p))) as [Hle|_]; [lia|].
  now rewrite (long_name_short _ _ _ Hs).
Qed.


Lemma Path_exists_ok (r : node) (p : Path) :
  path_ok p = true -> Path_exists r p = Ok (path_exists r p).
Proof.
  intros Hp. unfold Path_exists, os_stat, path_exists.
  rewrite (path_ok_error _ _ Hp). now destruct (stat r p) as [n|[|]].
Qed.


(** The store root is a path of that kind, so [list_customers] looks at
    it as [Path.exists] does. *)
Lemma Path_exists_output (r : node) :
  Path_exists r (parse_path OUTPUT) = Ok (path_exists r (parse_path OUTPUT)).
Proof. now apply Path_exists_ok. Qed.

(** [print] writes the line, or fails on a character that the encoding of
    standard output does not have and leaves the world as it is. *)
Lemma print_cases (line : str) (w : world) :
  print line w
  = if stdout_encodable w line
    then (Ok tt, emit (EvPrint line) w)
    else (Raise UnicodeEncodeError, w).
Proof. reflexivity. Qed.

(** ** The archive builder *)







(** ** Creating directories and files *)

Lemma mkdir_child_inv (p : Path) (x : str) (w w' : world) (u : unit) :
  plain (parts p) = true -> str_eqb x DOTDOT = false ->
  mkdir (child p x) w = (Ok u, w') ->
  exists t es,
    get (fs w) (parts p) = Some (Dir t es) /\ assoc x es = None /\
    w' = set_fs w (update (fs w) (parts p)
                     (create (clock w) x (Dir (clock w) []))).
Proof.
  intros Hp Hx. unfold mkdir.
  destruct (path_error (fs w) (child p x)); [discriminate|].
  destruct (stat (fs w) (child p x)) as [n|[|]] eqn:Hs; try discriminate.
  rewrite parent_child, path_name_child.
  destruct (realpath (fs w) p) as [c|e] eqn:Hr; [|discriminate].
  intros H.
  destruct (stat_missing_inv _ _ _ _ Hp Hx Hs Hr) as (t & es & Hg & Ha).
  pose proof (walk_plain_inv _ _ _ _ Hp Hr) as Hc. simpl in Hc. subst c.
  exists t, es. repeat split; [exact Hg | exact Ha | congruence].
Qed.

(** A call of [mkdir] that fails leaves the world as it is. *)
Lemma mkdir_raise (p : Path) (w w' : world) (e : exn) :
  mkdir p w = (Raise e, w') -> w' = w.
Proof.
  unfold mkdir. destruct (path_error (fs w) p); [now intros [= _ <-]|].
  destruct (stat (fs w) p) as [n|[|]]; try (now intros [= _ <-]).
  destruct (realpath (fs w) (parent p)); [discriminate | now intros [= _ <-]].
Qed.

Lemma mkdir_child_ok (p : Path) (x : str) (w : world) (t : Z) (es : list (str * node)) :
  plain (parts p) = true -> str_eqb x DOTDOT = false ->
  path_ok (child p x) = true ->
  get (fs w) (parts p) = Some (Dir t es) -> assoc x es = None ->
  mkdir (child p x) w
  = (Ok tt, set_fs w (update (fs w) (parts p)
                        (create (clock w) x (Dir (clock w) [])))).
Proof.
  intros Hp Hx Hok Hg Ha. unfold mkdir. rewrite (path_ok_error _ _ Hok).
  rewrite (stat_missing _ _ _ _ _ Hp Hx Hg Ha), parent_child, path_name_child.
  now rewrite (realpath_plain _ _ _ Hp Hg).
Qed.

Lemma write_text_child_ok (p : Path) (x data : str) (w : world)
    (t : Z) (es : list (str * node)) :
  plain (parts p) = true -> str_eqb x DOTDOT = false ->
  path_ok (child p x) = true -> utf8_encodable data = true ->
  get (fs w) (parts p) = Some (Dir t es) -> assoc x es = None ->
  write_text (child p x) data w
  = (Ok tt, set_fs w (update (fs w) (parts p)
                        (create (clock w) x (File (clock w) data)))).
Proof.
  intros Hp Hx Hok Hd Hg Ha. unfold write_text.
  rewrite (path_ok_error _ _ Hok), Hd.
  rewrite (stat_missing _ _ _ _ _ Hp Hx Hg Ha), parent_child, path_name_child.
  now rewrite (realpath_plain _ _ _ Hp Hg).
Qed.

(** *** The scratch directory *)

Lemma template_not_dotdot (x : str) : str_eqb (TEMPLATE ++ x) DOTDOT = false.
Proof. reflexivity. Qed.

(** A scratch directory that [mkdtemp] made did not exist, and is an
    empty directory afterwards; nothing else of the world has changed but
    the count of drawn names. *)
Lemma mkdtemp_loop_inv (fuel : nat) (w w1 : world) (tmp : Path) :
  plain (parts (tempdir w)) = true ->
  mkdtemp_loop fuel w = (Ok tmp, w1) ->
  exists nm t es,
    tmp = child (tempdir w) nm /\ str_eqb nm DOTDOT = false /\
    get (fs w) (parts (tempdir w)) = Some (Dir t es) /\ assoc nm es = None /\
    fs w1 = update (fs w) (parts (tempdir w))
              (create (clock w) nm (Dir (clock w) [])) /\
    environ w1 = environ w /\ clock w1 = clock w /\ tempdir w1 = tempdir w /\
    log w1 = log w /\ stdout_escapes w1 = stdout_escapes w /\
    arg_max w1 = arg_max w.
Proof.
  revert w. induction fuel as [|fuel IH]; intros w Hp; cbn [mkdtemp_loop];
    [discriminate|].
  destruct (mkdir (child (tempdir w) (TEMPLATE ++ rng w (drawn w))) (draw w))
    as [[u|e] w'] eqn:Hm.
  - intros [= <- <-].
    destruct (mkdir_child_inv (tempdir w) _ (draw w) w' u Hp
                (template_not_dotdot _) Hm) as (t & es & Hg & Ha & ->).
    exists (TEMPLATE ++ rng w (drawn w)), t, es. simpl.
    repeat split; try reflexivity; assumption.
  - apply mkdir_raise in Hm. subst w'. destruct e; try discriminate.
    intros H. destruct (IH (draw w) Hp H)
      as (nm & t & es & -> & Hx & Hg & Ha & Hfs & He & Hc & Ht & Hl & Ho & Hm).
    exists nm, t, es. simpl in *. repeat split; assumption.
Qed.

Lemma cleanup_log (p : Path) (w : world) : log (snd (cleanup p w)) = log w.
Proof.
  unfold cleanup. destruct (path_error (fs w) p); [reflexivity|].
  destruct (stat (fs w) p) as [[t d | t es]|[|]]; try reflexivity.
  destruct (realpath (fs w) p) as [[|x c]|e]; reflexivity.
Qed.

Lemma cleanup_ok (p : Path) (x : str) (w : world) :
  plain (parts p) = true -> str_eqb x DOTDOT = false ->
  path_ok (child p x) = true ->
  is_dir (fs w) (child p x) = true ->
  exists w', cleanup (child p x) w = (Ok tt, w') /\ log w' = log w.
Proof.
  intros Hp Hx Hok Hd. unfold cleanup. rewrite (path_ok_error _ _ Hok).
  unfold is_dir in Hd.
  destruct (stat (fs w) (child p x)) as [[t d | t es]|e] eqn:Hs; try discriminate.
  unfold stat in Hs.
  destruct (realpath (fs w) (child p x)) as [c|e] eqn:Hr; [|discriminate].
  pose proof (walk_plain_inv _ _ _ _ (plain_child _ _ Hp Hx) Hr) as Hc.
  simpl in Hc. subst c.
  destruct (parts p ++ [x]) as [|y c] eqn:E.
  - destruct (parts p); discriminate.
  - eexists. split; reflexivity.
Qed.

(** ** Config staging *)

Lemma stageable_names (cd : Path) (items : dict) :
  stageable cd items = true -> forallb valid_name (map fst items) = true.
Proof.
  unfold stageable. induction items as [|[k v] items IH]; simpl; [reflexivity|].
  rewrite !andb_true_iff. intros [[[Hk _] _] H]. split; [exact Hk | now apply IH].
Qed.

Lemma write_config_files_ok (cd : Path) (items : dict) :
  plain (parts cd) = true ->
  stageable cd items = true ->
  forall (w : world) (E : list (str * node)),
    get (fs w) (parts cd) = Some (Dir (clock w) E) ->
    NoDup (map fst E ++ map fst items) ->
    exists w',
      write_config_files cd items w
      = (Ok (map (fun kv => path_str (child cd (fst kv))) items), w') /\
      get (fs w') (parts cd) = Some (Dir (clock w) (E ++ staged (clock w) items)) /\
      environ w' = environ w /\ clock w' = clock w /\ tempdir w' = tempdir w /\
      log w' = log w /\ stdout_escapes w' = stdout_escapes w /\
      arg_max w' = arg_max w.
Proof.
  intros Hp. induction items as [|[k v] items IH]; intros Hv w E Hg Hnd.
  - exists w. unfold staged. simpl. rewrite app_nil_r. repeat split; auto.
  - simpl in Hv. rewrite !andb_true_iff in Hv. destruct Hv as [[[Hk Hok] Hd] Hv].
    simpl in Hk, Hok, Hd.
    assert (Ha : assoc k E = None).
    { apply assoc_None. intros Hin. apply NoDup_remove_2 in Hnd.
      apply Hnd. apply in_or_app. now left. }
    cbn [write_config_files]. rewrite (joinpath_valid _ _ Hk).
    unfold bind at 1.
    rewrite (write_text_child_ok cd k v w (clock w) E Hp (valid_name_plain _ Hk)
               Hok Hd Hg Ha).
    destruct (get_created (fs w) (parts cd) (clock w) (clock w) E k
                (File (clock w) v) Hg Ha) as [Hg' _].
    set (w1 := set_fs w (update (fs w) (parts cd)
                           (create (clock w) k (File (clock w) v)))) in *.
    assert (Hnd' : NoDup (map fst (E ++ [(k, File (clock w) v)]) ++ map fst items)).
    { rewrite map_app. simpl. rewrite <- app_assoc. exact Hnd. }
    destruct (IH Hv w1 (E ++ [(k, File (clock w) v)]) Hg' Hnd')
      as (w' & Hrun & Hget & He & Hc & Ht & Hl & Ho & Hm).
    exists w'. unfold bind at 1. rewrite Hrun. unfold ret.
    repeat split; try assumption.
    rewrite Hget. unfold staged. simpl. now rewrite <- app_assoc.
Qed.

(** *** [str.strip] *)

Lemma lstrip_spec (s : str) :
  exists l,
    s = l ++ lstrip s /\ forallb isspace l = true /\
    match lstrip s with [] => True | c :: _ => isspace c = false end.
Proof.
  induction s as [|c s (l & E & Hl & Hh)].
  - exists []. repeat split.
  - simpl. destruct (isspace c) eqn:Hc.
    + exists (c :: l). simpl. rewrite Hc, Hl. repeat split; [|exact Hh].
      now rewrite <- E.
    + exists []. repeat split. exact Hc.
Qed.

Lemma forallb_rev_true {A} (f : A -> bool) (l : list A) :
  forallb f l = true -> forallb f (rev l) = true.
Proof.
  rewrite !forallb_forall. intros H x Hx. apply H. now apply in_rev.
Qed.

Lemma rstrip_spec (s : str) :
  exists r,
    s = rstrip s ++ r /\ forallb isspace r = true /\
    match rstrip s with [] => True | c :: _ => isspace (last (rstrip s) c) = false end.
Proof.
  unfold rstrip. destruct (lstrip_spec (rev s)) as (l & E & Hl & Hh).
  exists (rev l). split; [|split].
  - rewrite <- rev_app_distr, <- E. symmetry. apply rev_involutive.
  - now apply forallb_rev_true.
  - destruct (lstrip (rev s)) as [|c t]; [exact I|].
    destruct (rev (c :: t)) as [|c' t'] eqn:Er; [exact I|].
    rewrite <- Er. simpl. now rewrite last_last.
Qed.

(** [strip] removes the whitespace at both ends, and nothing else. *)
Lemma strip_stripped (s : str) : stripped s (strip s).
Proof.
  unfold strip, stripped.
  destruct (lstrip_spec s) as (l & El & Hl & Hh).
  destruct (rstrip_spec (lstrip s)) as (r & Er & Hr & Ht).
  exists l, r. split; [|split; [|split]]; try assumption.
  - now rewrite <- Er.
  - destruct (rstrip (lstrip s)) as [|c t]; [exact I|].
    split; [|exact Ht]. rewrite Er in Hh. exact Hh.
Qed.

(** What [strip] gives is all that can be called the stripped text. *)
Lemma stripped_unique (s t t' : str) : stripped s t -> stripped s t' -> t = t'.
Proof.
  assert (Hpre : forall l l' u u' : str,
             l ++ u = l' ++ u' ->
             forallb isspace l = true -> forallb isspace l' = true ->
             match u with [] => True | c :: _ => isspace c = false end ->
             match u' with [] => True | c :: _ => isspace c = false end ->
             u <> [] -> u' <> [] -> l = l' /\ u = u').
  { induction l as [|a l IH]; intros l' u u' E Hl Hl' Hu Hu' Hne Hne'.
    - destruct l' as [|a' l']; [now split|]. simpl in E.
      destruct u as [|c u]; [contradiction|]. injection E as -> _.
      simpl in Hl'. apply andb_true_iff in Hl' as [Ha _]. congruence.
    - destruct l' as [|a' l'].
      + simpl in E. destruct u' as [|c u']; [contradiction|]. injection E as <- _.
        simpl in Hl. apply andb_true_iff in Hl as [Ha _]. congruence.
      + simpl in E, Hl, Hl'. injection E as <- E.
        apply andb_true_iff in Hl as [_ Hl]. apply andb_true_iff in Hl' as [_ Hl'].
        destruct (IH l' u u' E Hl Hl' Hu Hu' Hne Hne') as [-> ->]. now split. }
  assert (Hall : forall l u r : str,
             forallb isspace l = true -> forallb isspace r = true ->
             match u with [] => True | c :: _ => isspace (last u c) = false end ->
             forallb isspace (l ++ u ++ r) = true -> u = []).
  { intros l u r _ _ Hu Hs. rewrite !forallb_app, !andb_true_iff in Hs.
    destruct Hs as (_ & Hs & _). destruct u as [|c u]; [reflexivity|].
    rewrite forallb_forall in Hs.
    assert (Hin : In (last (c :: u) c) (c :: u)).
    { rewrite (app_removelast_last (l := c :: u) c) at 2 by discriminate.
      apply in_or_app. right. now left. }
    specialize (Hs _ Hin). congruence. }
  intros (l & r & E & Hl & Hr & Ht) (l' & r' & E' & Hl' & Hr' & Ht').
  destruct t as [|c t].
  - symmetry. apply (Hall l' t' r' Hl' Hr').
    + destruct t'; [exact I | tauto].
    + rewrite <- E', E. simpl. rewrite forallb_app. now rewrite Hl, Hr.
  - destruct t' as [|c' t'].
    + apply (Hall l (c :: t) r Hl Hr); [tauto|].
      rewrite <- E, E'. simpl. rewrite forallb_app. now rewrite Hl', Hr'.
    + destruct Ht as [Hc Hlast]. destruct Ht' as [Hc' Hlast'].
      assert (E1 : l ++ (c :: t) ++ r = l' ++ (c' :: t') ++ r') by congruence.
      destruct (Hpre l l' ((c :: t) ++ r) ((c' :: t') ++ r') E1 Hl Hl' Hc Hc')
        as [_ E2]; try discriminate.
      apply (f_equal (@rev N)) in E2. rewrite !rev_app_distr in E2.
      assert (Hrev : forall (a : N) (u : str),
                 match rev (a :: u) with
                 | [] => True
                 | x :: _ => x = last (a :: u) a
                 end).
      { intros a u. destruct (rev (a :: u)) as [|x v] eqn:Ev; [exact I|].
        apply (f_equal (@rev N)) in Ev. rewrite rev_involutive in Ev.
        simpl in Ev. rewrite Ev. now rewrite last_last. }
      pose proof (Hrev c t) as H1. pose proof (Hrev c' t') as H2.
      destruct (rev (c :: t)) as [|x v] eqn:Ev.
      { apply (f_equal (@length N)) in Ev. rewrite length_rev in Ev. discriminate. }
      destruct (rev (c' :: t')) as [|x' v'] eqn:Ev'.
      { apply (f_equal (@length N)) in Ev'. rewrite length_rev in Ev'. discriminate. }
      destruct (Hpre (rev r) (rev r') (x :: v) (x' :: v') E2
                  (forallb_rev_true _ _ Hr) (forallb_rev_true _ _ Hr'))
        as [_ E3]; try discriminate; try congruence.
      rewrite <- Ev, <- Ev' in E3.
      apply (f_equal (@rev N)) in E3. now rewrite !rev_involutive in E3.
Qed.

(** *** The paths of a well-formed tree are distinct *)



(** *** The value of the customer lister *)


(** ** The generation invoker *)

Lemma events_of_app {A} (w : world) (out : outcome A * world) (evs : list event) :
  log (snd out) = log w ++ evs -> events_of w out = evs.
Proof.
  intros H. unfold events_of. rewrite H.
  rewrite skipn_app, skipn_all, Nat.sub_diag. reflexivity.
Qed.

Lemma join_snoc (ps : list str) (x : str) :
  join SLASH (ps ++ [x])
  = match ps with [] => x | _ :: _ => join SLASH ps ++ SLASH ++ x end.
Proof.
  induction ps as [|y ps IH]; [reflexivity|].
  destruct ps as [|z ps]; [reflexivity|].
  change (join SLASH ((y :: z :: ps) ++ [x]))
    with (y ++ SLASH ++ join SLASH ((z :: ps) ++ [x])).
  rewrite IH.
  change (join SLASH (y :: z :: ps)) with (y ++ SLASH ++ join SLASH (z :: ps)).
  now rewrite <- !app_assoc.
Qed.

(** The path to a directory is accepted when the path to one of its
    entries is. *)
Lemma path_ok_parent (p : Path) (x : str) :
  path_ok (child p x) = true -> path_ok p = true.
Proof.
  unfold path_ok. rewrite !andb_true_iff, !negb_true_iff, !N.ltb_lt.
  intros [[[He Hn] Hl] Hs].
  simpl in Hs. rewrite forallb_app in Hs. apply andb_true_iff in Hs as [Hs _].
  destruct p as [r ps]. simpl in *.
  assert (E : path_str (child (mkPath r ps) x)
              = match ps with
                | [] => r ++ x
                | _ :: _ => (r ++ join SLASH ps) ++ SLASH ++ x
                end).
  { unfold path_str, child. cbn [root parts].
    destruct ps as [|y ps]; [now destruct r|].
    assert (J : join SLASH ((y :: ps) ++ [x]) = join SLASH (y :: ps) ++ SLASH ++ x)
      by apply join_snoc.
    change ((y :: ps) ++ [x]) with (y :: ps ++ [x]) in *.
    destruct r; cbn [app]; rewrite J; [reflexivity|].
    rewrite <- app_assoc. reflexivity. }
  rewrite E in He, Hn, Hl. clear E.
  unfold path_str. cbn [root parts].
  destruct ps as [|y ps].
  - rewrite fs_encodable_app in He. rewrite has_nul_app in Hn.
    rewrite fs_length_app in Hl.
    apply andb_true_iff in He as [He _]. apply orb_false_iff in Hn as [Hn _].
    destruct r as [|c r].
    + repeat split.
    + cbn [join]. rewrite app_nil_r. repeat split; try assumption. lia.
  - rewrite fs_encodable_app in He. rewrite has_nul_app in Hn.
    rewrite fs_length_app in Hl.
    apply andb_true_iff in He as [He _]. apply orb_false_iff in Hn as [Hn _].
    destruct r as [|c r]; repeat split; try assumption; lia.
Qed.




Section InvokerFacts.

Variables customer_name sap_version : str.
Variable quote_fields : list str.
Variable custom_fields : option dict.
Variables special_logic resume_session_id : option str.
Variable fork_session : bool.

(** Lines 98-163, step by step: the two prints, the API key, the start
    of the process, the run and the decoding of its output, the look at
    the directory of the customer, the listing, the commit. *)
Lemma generate_tail_unfold
    (cli : list str -> dict -> node -> node * CompletedProcess)
    (paths : list str) (w : world) :
  let cmd := build_cmd customer_name sap_version paths quote_fields
               custom_fields special_logic resume_session_id fork_session in
  let od := customer_output_dir customer_name in
  let w1 := emit (EvPrint (start_line customer_name)) w in
  let w2 := emit (EvPrint (command_line cmd)) w1 in
  generate_tail cli customer_name sap_version quote_fields custom_fields
    special_logic resume_session_id fork_session paths w
  = if negb (stdout_encodable w (start_line customer_name))
    then (Raise UnicodeEncodeError, w)
    else if negb (stdout_encodable w (command_line cmd))
    then (Raise UnicodeEncodeError, w1)
    else
      match assoc API_KEY (environ w) with
      | None => (Raise (KeyError API_KEY), w2)
      | Some _ =>
          match launch_error (arg_max w) cmd (environ w) with
          | Some e => (Raise e, w2)
          | None =>
              let run := cli cmd (environ w) (fs w) in
              let w3 := set_fs (emit (EvRun cmd (environ w) (fs w)) w2) (fst run) in
              match text_of (raw_stdout (snd run)), text_of (raw_stderr (snd run)) with
              | Some out, Some err =>
                  match Path_exists (fst run) od with
                  | Raise e => (Raise e, w3)
                  | Ok found =>
                      match (if found
                             then relative_files (fst run) (parse_path OUTPUT)
                                    (rglob (fst run) od)
                             else Ok []) with
                      | Raise e => (Raise e, w3)
                      | Ok generated_files =>
                          (Ok (mkResult (parse_session_id out) (path_str od)
                                 generated_files out err (returncode (snd run))),
                           emit EvCommit w3)
                      end
                  end
              | _, _ => (Raise UnicodeDecodeError, w3)
              end
          end
      end.
Proof.
  intros cmd od w1 w2. unfold generate_tail. fold cmd. fold od.
  unfold bind at 1. rewrite print_cases.
  fold (start_line customer_name).
  destruct (stdout_encodable w (start_line customer_name)); [|reflexivity].
  cbn [negb]. fold w1.
  unfold bind at 1. rewrite print_cases. fold (command_line cmd).
  change (stdout_encodable w1 (command_line cmd))
    with (stdout_encodable w (command_line cmd)).
  destruct (stdout_encodable w (command_line cmd)); [|reflexivity].
  cbn [negb]. fold w2.
  unfold bind at 1. unfold environ_get.
  change (environ w2) with (environ w).
  destruct (assoc API_KEY (environ w)) as [key|] eqn:Hkey; [|reflexivity].
  unfold bind at 1. change (environ w2) with (environ w).
  rewrite (set_entry_same _ _ _ Hkey).
  unfold bind at 1. unfold subprocess_run.
  change (arg_max w2) with (arg_max w). change (fs w2) with (fs w).
  destruct (launch_error (arg_max w) cmd (environ w)); [reflexivity|].
  destruct (cli cmd (environ w) (fs w)) as [after res]. cbn [fst snd].
  destruct (text_of (raw_stdout res)) as [out|]; [|reflexivity].
  destruct (text_of (raw_stderr res)) as [err|]; [|reflexivity].
  unfold bind at 1. unfold tries at 1. cbn [fs set_fs].
  destruct (Path_exists after od) as [found|e]; [|reflexivity].
  unfold bind at 1.
  destruct found.
  - unfold tries. cbn [fs set_fs].
    destruct (relative_files after (parse_path OUTPUT) (rglob after od));
      reflexivity.
  - reflexivity.
Qed.



(** The staging of a mapping that can be staged, in a scratch directory
    that [mkdtemp] just made: the directory was not there before, the
    config directory holds the staged files and nothing else, and the
    rest of the body runs from there. *)
Lemma generate_body_staged
    (cli : list str -> dict -> node -> node * CompletedProcess)
    (cfg : dict) (w w1 : world) (tmp : Path) :
  plain (parts (tempdir w)) = true ->
  mkdtemp w = (Ok tmp, w1) ->
  path_ok (child tmp (lit "config")) = true ->
  stageable (child tmp (lit "config")) cfg = true ->
  NoDup (map fst cfg) ->
  exists nm w3,
    tmp = child (tempdir w) nm /\ str_eqb nm DOTDOT = false /\
    stat (fs w) tmp = Err ENOENT /\
    stat (fs w3) (child tmp (lit "config"))
    = Hit (Dir (clock w) (staged (clock w) cfg)) /\
    is_dir (fs w3) tmp = true /\
    environ w3 = environ w /\ log w3 = log w /\
    stdout_escapes w3 = stdout_escapes w /\ arg_max w3 = arg_max w /\
    generate_body cli customer_name sap_version cfg quote_fields custom_fields
      special_logic resume_session_id fork_session tmp w1
    = generate_tail cli customer_name sap_version quote_fields custom_fields
        special_logic resume_session_id fork_session
        (map (fun kv => path_str (child (child tmp (lit "config")) (fst kv))) cfg)
        w3.
Proof.
  intros Hp Hmk Hok Hv Hnd. unfold mkdtemp in Hmk.
  destruct (mkdtemp_loop_inv _ _ _ _ Hp Hmk)
    as (nm & t & es & -> & Hnm & Hg & Ha & Hfs & He & Hc & Ht & Hl & Ho & Hm).
  set (tmp := child (tempdir w) nm) in *.
  assert (Hptmp : plain (parts tmp) = true) by now apply plain_child.
  assert (Hg1 : get (fs w1) (parts tmp) = Some (Dir (clock w1) [])).
  { rewrite Hfs, Hc. exact (proj2 (get_created _ _ (clock w) _ _ _ _ Hg Ha)). }
  pose proof (mkdir_child_ok tmp (lit "config") w1 (clock w1) [] Hptmp eq_refl
                Hok Hg1 eq_refl) as Hmkdir.
  set (w2 := set_fs w1 (update (fs w1) (parts tmp)
                          (create (clock w1) (lit "config") (Dir (clock w1) []))))
    in *.
  assert (Hpcd : plain (parts (child tmp (lit "config"))) = true)
    by now apply plain_child.
  assert (Hg2 : get (fs w2) (parts (child tmp (lit "config")))
                = Some (Dir (clock w2) [])).
  { exact (proj2 (get_created _ _ (clock w1) _ _ _ _ Hg1 eq_refl)). }
  destruct (write_config_files_ok (child tmp (lit "config")) cfg Hpcd Hv w2 []
              Hg2 Hnd) as (w3 & Hrun & Hg3 & He3 & Hc3 & Ht3 & Hl3 & Ho3 & Hm3).
  change (clock w2) with (clock w1) in Hg3. rewrite Hc in Hg3. simpl app in Hg3.
  exists nm, w3. repeat split.
  - exact Hnm.
  - exact (stat_missing _ _ _ _ _ Hp Hnm Hg Ha).
  - exact (stat_plain _ _ _ Hpcd Hg3).
  - unfold is_dir.
    change (parts (child tmp (lit "config"))) with (parts tmp ++ [lit "config"]) in Hg3.
    rewrite get_app in Hg3.
    destruct (get (fs w3) (parts tmp)) as [[tm dm | tm em]|] eqn:G; try discriminate.
    now rewrite (stat_plain _ _ _ Hptmp G).
  - rewrite He3. exact He.
  - rewrite Hl3. exact Hl.
  - rewrite Ho3. exact Ho.
  - rewrite Hm3. exact Hm.
  - unfold generate_body. cbv zeta. rewrite joinpath_config.
    unfold bind at 1. rewrite Hmkdir.
    unfold bind at 1. rewrite Hrun. reflexivity.
Qed.

End InvokerFacts.

(** *** What the calls leave alone *)

Lemma same_process_refl (w : world) : same_process w w.
Proof. now repeat split. Qed.

Lemma same_process_trans (a b c : world) :
  same_process a b -> same_process b c -> same_process a c.
Proof.
  unfold same_process. intros (?&?&?&?&?&?&?) (?&?&?&?&?&?&?).
  repeat split; congruence.
Qed.

Lemma mkdir_process (p : Path) (w : world) : same_process w (snd (mkdir p w)).
Proof.
  unfold mkdir. destruct (path_error (fs w) p); [apply same_process_refl|].
  destruct (stat (fs w) p) as [n|[|]]; try apply same_process_refl.
  destruct (realpath (fs w) (parent p)); now repeat split.
Qed.

Lemma write_text_process (p : Path) (data : str) (w : world) :
  same_process w (snd (write_text p data w)).
Proof.
  unfold write_text. destruct (path_error (fs w) p); [apply same_process_refl|].
  destruct (stat (fs w) p) as [[t d|t es]|[|]]; try apply same_process_refl.
  - destruct (realpath (fs w) p); now repeat split.
  - destruct (realpath (fs w) (parent p)); now repeat split.
Qed.

Lemma cleanup_process (p : Path) (w : world) : same_process w (snd (cleanup p w)).
Proof.
  unfold cleanup. destruct (path_error (fs w) p); [apply same_process_refl|].
  destruct (stat (fs w) p) as [[t d | t es]|[|]]; try apply same_process_refl.
  destruct (realpath (fs w) p) as [[|x c]|e]; now repeat split.
Qed.

Lemma write_config_files_process (cd : Path) (items : dict) (w : world) :
  same_process w (snd (write_config_files cd items w)).
Proof.
  revert w. induction items as [|[k v] items IH]; intros w; cbn [write_config_files].
  - apply same_process_refl.
  - unfold bind at 1.
    pose proof (write_text_process (joinpath cd k) v w) as H1.
    destruct (write_text (joinpath cd k) v w) as [[u|e] w1]; [|exact H1].
    unfold bind at 1. pose proof (IH w1) as H2.
    destruct (write_config_files cd items w1) as [[l|e] w2];
      exact (same_process_trans _ _ _ H1 H2).
Qed.

Lemma mkdtemp_loop_process (fuel : nat) (w : world) :
  same_process w (snd (mkdtemp_loop fuel w)).
Proof.
  revert w. induction fuel as [|fuel IH]; intros w; cbn [mkdtemp_loop].
  - apply same_process_refl.
  - pose proof (mkdir_process (child (tempdir w) (TEMPLATE ++ rng w (drawn w)))
                  (draw w)) as H1.
    assert (H0 : same_process w (draw w)) by now repeat split.
    destruct (mkdir _ (draw w)) as [[u|e] w1].
    + exact (same_process_trans _ _ _ H0 H1).
    + destruct e; try exact (same_process_trans _ _ _ H0 H1).
      exact (same_process_trans _ _ _ (same_process_trans _ _ _ H0 H1) (IH w1)).
Qed.

Section InvokerCourse.

Variables customer_name sap_version : str.
Variable quote_fields : list str.
Variable custom_fields : option dict.
Variables special_logic resume_session_id : option str.
Variable fork_session : bool.

(** The events of lines 98-163: the two prints, then the run if the
    process starts, then the commit if the result is made.  The run, if
    there is one, is that of the command built, in the environment of
    the process, on the file system as it is. *)
Lemma generate_tail_events
    (cli : list str -> dict -> node -> node * CompletedProcess)
    (paths : list str) (w : world) :
  let cmd := build_cmd customer_name sap_version paths quote_fields
               custom_fields special_logic resume_session_id fork_session in
  let out := generate_tail cli customer_name sap_version quote_fields
               custom_fields special_logic resume_session_id fork_session
               paths w in
  environ (snd out) = environ w /\
  stdout_escapes (snd out) = stdout_escapes w /\ arg_max (snd out) = arg_max w /\
  exists evs,
    log (snd out) = log w ++ evs /\
    (evs = [] \/ evs = [EvPrint (start_line customer_name)] \/
     evs = [EvPrint (start_line customer_name); EvPrint (command_line cmd)] \/
     evs = [EvPrint (start_line customer_name); EvPrint (command_line cmd);
            EvRun cmd (environ w) (fs w)] \/
     evs = [EvPrint (start_line customer_name); EvPrint (command_line cmd);
            EvRun cmd (environ w) (fs w); EvCommit]) /\
    (forall r, fst out = Ok r ->
               evs = [EvPrint (start_line customer_name); EvPrint (command_line cmd);
                      EvRun cmd (environ w) (fs w); EvCommit]) /\
    (forall key,
        startable w customer_name cmd = true ->
        assoc API_KEY (environ w) = Some key ->
        In (EvRun cmd (environ w) (fs w)) evs).
Proof.
  intros cmd out. subst out. rewrite generate_tail_unfold. cbv zeta. fold cmd.
  unfold startable.
  destruct (stdout_encodable w (start_line customer_name)); cbn [negb andb].
  2:{ repeat (split; [reflexivity|]). exists []. rewrite app_nil_r.
      split; [reflexivity|]. split; [now left|].
      split; [discriminate | discriminate]. }
  destruct (stdout_encodable w (command_line cmd)); cbn [negb andb].
  2:{ repeat (split; [reflexivity|]). eexists. split; [reflexivity|].
      split; [right; now left|]. split; discriminate. }
  destruct (assoc API_KEY (environ w)) as [key|].
  2:{ repeat (split; [reflexivity|]). eexists.
      split; [simpl; rewrite <- app_assoc; reflexivity|].
      split; [right; right; now left|]. split; discriminate. }
  destruct (launch_error (arg_max w) cmd (environ w)).
  { repeat (split; [reflexivity|]). eexists.
    split; [simpl; rewrite <- app_assoc; reflexivity|].
    split; [right; right; now left|]. split; discriminate. }
  assert (Run : forall (o : outcome GenerationResult),
             let w3 := set_fs (emit (EvRun cmd (environ w) (fs w))
                                 (emit (EvPrint (command_line cmd))
                                    (emit (EvPrint (start_line customer_name)) w)))
                         (fst (cli cmd (environ w) (fs w))) in
             (forall r, o <> Ok r) ->
             environ (snd (o, w3)) = environ w /\
             stdout_escapes (snd (o, w3)) = stdout_escapes w /\
             arg_max (snd (o, w3)) = arg_max w /\
             exists evs,
               log (snd (o, w3)) = log w ++ evs /\
               (evs = [] \/ evs = [EvPrint (start_line customer_name)] \/
                evs = [EvPrint (start_line customer_name); EvPrint (command_line cmd)] \/
                evs = [EvPrint (start_line customer_name); EvPrint (command_line cmd);
                       EvRun cmd (environ w) (fs w)] \/
                evs = [EvPrint (start_line customer_name); EvPrint (command_line cmd);
                       EvRun cmd (environ w) (fs w); EvCommit]) /\
               (forall r, fst (o, w3) = Ok r ->
                          evs = [EvPrint (start_line customer_name);
                                 EvPrint (command_line cmd);
                                 EvRun cmd (environ w) (fs w); EvCommit]) /\
               (forall key0 : str,
                   true = true -> Some key = Some key0 ->
                   In (EvRun cmd (environ w) (fs w)) evs)).
  { intros o w3 Ho. repeat (split; [reflexivity|]). eexists.
    split; [simpl; rewrite <- !app_assoc; reflexivity|].
    split; [right; right; right; now left|].
    split; [intros r Hr; now elim (Ho r)|].
    intros _ _ _. right. right. now left. }
  destruct (text_of (raw_stdout _)) as [outt|]; [|apply Run; discriminate].
  destruct (text_of (raw_stderr _)) as [errt|]; [|apply Run; discriminate].
  destruct (Path_exists _ _) as [found|e]; [|apply Run; discriminate].
  destruct (if found then _ else _) as [fl|e]; [|apply Run; discriminate].
  repeat (split; [reflexivity|]). eexists.
  split; [simpl; rewrite <- !app_assoc; reflexivity|].
  split; [right; right; right; now right|].
  split; [reflexivity|].
  intros _ _ _. right. right. now left.
Qed.

(** What a result of lines 98-163 is made of. *)
Lemma generate_tail_result
    (cli : list str -> dict -> node -> node * CompletedProcess)
    (paths : list str) (w w' : world) (r : GenerationResult) :
  generate_tail cli customer_name sap_version quote_fields custom_fields
    special_logic resume_session_id fork_session paths w = (Ok r, w') ->
  let cmd := build_cmd customer_name sap_version paths quote_fields
               custom_fields special_logic resume_session_id fork_session in
  let run := cli cmd (environ w) (fs w) in
  exists out err found,
    text_of (raw_stdout (snd run)) = Some out /\
    text_of (raw_stderr (snd run)) = Some err /\
    Path_exists (fst run) (customer_output_dir customer_name) = Ok found /\
    (if found
     then relative_files (fst run) (parse_path OUTPUT)
            (rglob (fst run) (customer_output_dir customer_name))
     else Ok []) = Ok (files r) /\
    r = mkResult (parse_session_id out)
          (path_str (customer_output_dir customer_name)) (files r) out err
          (returncode (snd run)) /\
    w' = emit EvCommit
           (set_fs (emit (EvRun cmd (environ w) (fs w))
                      (emit (EvPrint (command_line cmd))
                         (emit (EvPrint (start_line customer_name)) w)))
              (fst run)).
Proof.
  rewrite generate_tail_unfold. cbv zeta.
  destruct (stdout_encodable w (start_line customer_name)); cbn [negb];
    [|discriminate].
  destruct (stdout_encodable w (command_line _)); cbn [negb]; [|discriminate].
  destruct (assoc API_KEY (environ w)); [|discriminate].
  destruct (launch_error _ _ _); [discriminate|].
  destruct (text_of (raw_stdout _)) as [out|]; [|discriminate].
  destruct (text_of (raw_stderr _)) as [err|]; [|discriminate].
  destruct (Path_exists _ _) as [found|e]; [|discriminate].
  destruct (if found then _ else _) as [fl|e] eqn:Hfl; [|discriminate].
  intros [= <- <-]. exists out, err, found. cbn [files].
  repeat split; try reflexivity. exact Hfl.
Qed.

End InvokerCourse.

(** *** The whole call *)

(** With a scratch directory made and a mapping that can be staged, the
    call is lines 98-163 on the staged file system, then the removal of
    the scratch directory. *)
Lemma generate_endpoint_staged
    (cli : list str -> dict -> node -> node * CompletedProcess)
    (customer_name sap_version : str) (cfg : dict) (quote_fields : list str)
    (custom_fields : option dict) (special_logic resume_session_id : option str)
    (fork_session : bool) (w w1 : world) (tmp : Path) :
  plain (parts (tempdir w)) = true ->
  mkdtemp w = (Ok tmp, w1) ->
  path_ok (child tmp (lit "config")) = true ->
  stageable (child tmp (lit "config")) cfg = true ->
  NoDup (map fst cfg) ->
  exists nm w3,
    tmp = child (tempdir w) nm /\ str_eqb nm DOTDOT = false /\
    stat (fs w) tmp = Err ENOENT /\
    stat (fs w3) (child tmp (lit "config"))
    = Hit (Dir (clock w) (staged (clock w) cfg)) /\
    is_dir (fs w3) tmp = true /\
    environ w3 = environ w /\ log w3 = log w /\
    stdout_escapes w3 = stdout_escapes w /\ arg_max w3 = arg_max w /\
    generate_endpoint cli customer_name sap_version cfg quote_fields
      custom_fields special_logic resume_session_id fork_session w
    = (let (o, w4) :=
         generate_tail cli customer_name sap_version quote_fields custom_fields
           special_logic resume_session_id fork_session
           (map (fun kv => path_str (child (child tmp (lit "config")) (fst kv))) cfg)
           w3 in
       match cleanup tmp w4 with
       | (Ok _, w5) => (o, w5)
       | (Raise e, w5) => (Raise e, w5)
       end).
Proof.
  intros Hp Hmk Hok Hv Hnd.
  destruct (generate_body_staged customer_name sap_version quote_fields
              custom_fields special_logic resume_session_id fork_session cli
              cfg w w1 tmp Hp Hmk Hok Hv Hnd)
    as (nm & w3 & H1 & H2 & H3 & H4 & H5 & H6 & H7 & H8 & H9 & Hbody).
  exists nm, w3. repeat (split; [assumption|]).
  unfold generate_endpoint, with_TemporaryDirectory. rewrite Hmk, Hbody.
  reflexivity.
Qed.


(** What a result of the call is made of: the decoded output and the
    return code of the one run of the CLI, and the listing of the store
    that the run left. *)
Lemma generate_endpoint_result
    (cli : list str -> dict -> node -> node * CompletedProcess)
    (cn sv : str) (cfg : dict) (qf : list str) (cu : option dict)
    (sl rs : option str) (fk : bool) (w w' : world) (r : GenerationResult) :
  generate_endpoint cli cn sv cfg qf cu sl rs fk w = (Ok r, w') ->
  exists paths before out err found,
    let cmd := build_cmd cn sv paths qf cu sl rs fk in
    let run := cli cmd (environ w) before in
    log w' = log w ++ [EvPrint (start_line cn); EvPrint (command_line cmd);
                       EvRun cmd (environ w) before; EvCommit] /\
    text_of (raw_stdout (snd run)) = Some out /\
    text_of (raw_stderr (snd run)) = Some err /\
    Path_exists (fst run) (customer_output_dir cn) = Ok found /\
    (if found
     then relative_files (fst run) (parse_path OUTPUT)
            (rglob (fst run) (customer_output_dir cn))
     else Ok []) = Ok (files r) /\
    r = mkResult (parse_session_id out) (path_str (customer_output_dir cn))
          (files r) out err (returncode (snd run)).
Proof.
  unfold generate_endpoint, with_TemporaryDirectory.
  pose proof (mkdtemp_loop_process TMP_MAX w) as H1. fold mkdtemp in H1.
  destruct (mkdtemp w) as [[tmp|e] w1]; [|discriminate]. simpl in H1.
  destruct (generate_body _ _ _ _ _ _ _ _ _ _ w1) as [o w2] eqn:Hb.
  pose proof (cleanup_process tmp w2) as H3.
  destruct (cleanup tmp w2) as [[u|e] w3]; [|discriminate]. simpl in H3.
  intros [= -> ->].
  unfold generate_body in Hb.
  pose proof (mkdir_process (joinpath tmp (lit "config")) w1) as Hm.
  bind_inv Hb as u1 wa Hmk. rewrite Hmk in Hm. simpl in Hm.
  pose proof (write_config_files_process (joinpath tmp (lit "config")) cfg wa) as Hw.
  bind_inv Hb as paths wb Hwr. rewrite Hwr in Hw. simpl in Hw.
  pose proof (same_process_trans _ _ _ (same_process_trans _ _ _ H1 Hm) Hw)
    as (He & _ & _ & _ & Hl & _ & _).
  destruct (generate_tail_result cn sv qf cu sl rs fk cli paths wb w2 r Hb)
    as (out & err & found & Ho & Her & Hf & Hfl & Hr & Hw2).
  cbv zeta in Ho, Her, Hf, Hfl, Hr, Hw2. rewrite He in *.
  exists paths, (fs wb), out, err, found. cbv zeta.
  repeat split; try assumption.
  destruct H3 as (_ & _ & _ & _ & Hl3 & _). rewrite Hl3, Hw2. simpl.
  rewrite Hl, <- !app_assoc. reflexivity.
Qed.

(** ** The sample deployment, evaluated *)

(** A run of the sample deployment, evaluated. *)
Lemma sample_run_value :
  generate_endpoint sample_cli (lit "acme") (lit "ECC6") sample_config
    [lit "customer_id"; lit "quote_date"; lit "total_amount"]
    None None None false sample_world
  = (Ok sample_result, snd sample_run).
Proof. vm_compute. reflexivity. Qed.

Lemma sample_events_value :
  events_of sample_world
    (generate_endpoint sample_cli (lit "acme") (lit "ECC6") sample_config
       [lit "customer_id"; lit "quote_date"; lit "total_amount"]
       None None None false sample_world)
  = sample_events.
Proof. vm_compute. reflexivity. Qed.

Lemma sample_mkdtemp :
  mkdtemp sample_world = (Ok sample_scratch, snd (mkdtemp sample_world)).
Proof. vm_compute. reflexivity. Qed.

Lemma sample_config_nodup : NoDup (map fst sample_config).
Proof.
  repeat constructor; simpl; intuition discriminate.
Qed.

Lemma sample_stageable :
  stageable (child sample_scratch (lit "config")) sample_config = true.
Proof. vm_compute. reflexivity. Qed.


(** ** The claims *)






(** A directory that is missing under a name of 300 bytes: the call ends
    in [OSError], which is no not-found condition. *)
Example download_long_name :
  is_dir (fs sample_world) (customer_output_dir (repeat 97%N 300)) = false /\
  download_generated_code (repeat 97%N 300) sample_world
  = (Raise (OSError (lit "File name too long")), sample_world).
Proof. vm_compute. split; reflexivity. Qed.

(** C3. The file count.  In the sample store the directory of [acme]
    holds two regular files and one subdirectory; [list_customers] reports
    a [file_count] of three: [rglob("*")] yields the subdirectory too (in
    general the count is that of the regular files plus that of the
    directories, [file_count_value]). *)
Theorem file_count_counts_directories :
  stat sample_fs (customer_output_dir (lit "acme")) = Hit sample_acme /\
  regular_files sample_acme = 2 /\
  subdirectories sample_acme = 1 /\
  list_customers sample_world
  = (Ok [mkCustomer (lit "globex") 20 1; mkCustomer (lit "acme") 10 3],
     sample_world).
Proof.
  repeat split.
Qed.




(** The archive of the customer of the recent store, member by member,
    and the failure on the sample store. *)
Example download_scenario :
  download_generated_code (lit "acme") recent_world
  = (Ok [(lit "README", lit "hello"); (lit "src/a.ts", lit "export {}")],
     emit EvZipOpen recent_world).
Proof. vm_compute. reflexivity. Qed.

Example download_before_1980 :
  download_generated_code (lit "acme") sample_world
  = (Raise (ValueError (lit "ZIP does not support timestamps before 1980")),
     emit EvZipOpen sample_world).
Proof. vm_compute. reflexivity. Qed.



(** The scenario of the specification: the more recent customer first. *)
Example list_customers_scenario :
  list_customers sample_world
  = (Ok [mkCustomer (lit "globex") 20 1; mkCustomer (lit "acme") 10 3], sample_world).
Proof. reflexivity. Qed.

(** C6 (as amended). Session-identifier extraction.  Of a result of
    [generate_endpoint]: its [stdout] is the decoded stdout of the run of
    the CLI; when no line of it (the pieces between newlines) contains
    the marker ["Session ID:"], [session_id] is null; otherwise it is the
    text that follows the last occurrence of the marker on the first line
    that contains it, with the whitespace at both ends removed: with the
    line read as [pre ++ marker ++ post], where [post] holds no further
    marker, [session_id] is [post] less its leading and its trailing
    whitespace. *)
Theorem session_id_extraction
    (cli : list str -> dict -> node -> node * CompletedProcess)
    (cn sv : str) (cfg : dict) (qf : list str) (cu : option dict)
    (sl rs : option str) (fk : bool) (w w' : world) (r : GenerationResult) :
  generate_endpoint cli cn sv cfg qf cu sl rs fk w = (Ok r, w') ->
  (exists cmd env before,
      In (EvRun cmd env before) (log w') /\
      text_of (raw_stdout (snd (cli cmd env before))) = Some (stdout r)) /\
  ((forall line, In line (split NEWLINE (stdout r)) ->
                 contains SESSION_MARKER line = false) ->
   session_id r = None) /\
  (forall before line after pre post,
      split NEWLINE (stdout r) = before ++ line :: after ->
      (forall l, In l before -> contains SESSION_MARKER l = false) ->
      line = pre ++ SESSION_MARKER ++ post ->
      contains SESSION_MARKER post = false ->
      exists sid, session_id r = Some sid /\ stripped post sid).
Proof.
  intros H.
  destruct (generate_endpoint_result _ _ _ _ _ _ _ _ _ _ _ _ H)
    as (paths & fs0 & out & err & found & Hlog & Hout & _ & _ & _ & Hr).
  cbv zeta in Hlog, Hout, Hr.
  assert (Hsid : session_id r = parse_session_id out) by now rewrite Hr.
  assert (Hstd : stdout r = out) by now rewrite Hr.
  split; [|split].
  - do 3 eexists. split; [|rewrite Hstd; exact Hout].
    rewrite Hlog. apply in_or_app. right. right. right. now left.
  - rewrite Hsid, Hstd. unfold parse_session_id. apply scan_session_id_none.
  - rewrite Hsid, Hstd. unfold parse_session_id.
    intros bef line after pre post Hsplit Hbef Hline Hpost.
    exists (strip post). split; [|apply strip_stripped].
    rewrite Hsplit, (scan_session_id_first bef line after Hbef).
    + now rewrite Hline, (marker_last_piece pre post Hpost).
    + rewrite Hline. apply contains_app.
Qed.

Lemma session_id_extraction_witness :
  session_id sample_result = Some (lit "abc123") /\
  stripped (lit "   abc123 " ++ [9%N]) (lit "abc123").
Proof.
  destruct (proj2 (proj2 (session_id_extraction sample_cli (lit "acme") (lit "ECC6")
                            sample_config
                            [lit "customer_id"; lit "quote_date"; lit "total_amount"]
                            None None None false sample_world (snd sample_run)
                            sample_result sample_run_value))
              [lit "starting"] (lit "Session ID:   abc123 " ++ [9%N]) [lit "done"] []
              (lit "   abc123 " ++ [9%N]))
    as (sid & Hsid & Hstripped).
  - reflexivity.
  - intros l [<-|[]]. reflexivity.
  - reflexivity.
  - reflexivity.
  - injection Hsid as <-. split; [reflexivity | exact Hstripped].
Defined.

(** A run of the generator that prints the marker twice on a line. *)
Lemma two_marker_run_value :
  exists files w',
    generate_endpoint two_marker_cli (lit "acme") (lit "ECC6") sample_config []
      None None None false sample_world
    = (Ok (mkResult (Some (lit "b")) (lit "/output/acme") files
             (lit "Session ID: a Session ID: b") [] 0), w').
Proof. do 2 eexists. vm_compute. reflexivity. Qed.

(** C6 (as stated) fails: when the marker stands twice on the line, the
    text that follows its first occurrence is not what [session_id]
    holds.  On the stdout ["Session ID: a Session ID: b"] the code gives
    ["b"], which is not the stripped text after the first marker. *)
Lemma session_id_extraction_counterexample :
  ~ (forall (cli : list str -> dict -> node -> node * CompletedProcess)
            (cn sv : str) (cfg : dict) (qf : list str) (cu : option dict)
            (sl rs : option str) (fk : bool) (w w' : world)
            (r : GenerationResult),
        generate_endpoint cli cn sv cfg qf cu sl rs fk w = (Ok r, w') ->
        forall before line after pre post,
          split NEWLINE (stdout r) = before ++ line :: after ->
          (forall l, In l before -> contains SESSION_MARKER l = false) ->
          line = pre ++ SESSION_MARKER ++ post ->
          contains SESSION_MARKER pre = false ->
          exists sid, session_id r = Some sid /\ stripped post sid).
Proof.
  intros H.
  destruct two_marker_run_value as (files & w' & Hrun).
  destruct (H _ _ _ _ _ _ _ _ _ _ _ _ Hrun
              [] (lit "Session ID: a Session ID: b") [] []
              (lit " a Session ID: b"))
    as (sid & Hsid & l & r & E & Hl & _ & _).
  - reflexivity.
  - intros l [].
  - reflexivity.
  - reflexivity.
  - injection Hsid as <-.
    destruct l as [|c1 l]; [discriminate E|].
    injection E as <- E.
    destruct l as [|c2 l]; [discriminate E|].
    injection E as <- E. discriminate Hl.
Qed.

(** The scenario of the specification: a stdout holding the line
    ["Session ID: abc123"]. *)
Example parse_session_id_scenario :
  parse_session_id (lit "Session ID: abc123") = Some (lit "abc123").
Proof. reflexivity. Qed.

(** A line that holds the marker twice gives the text after the second. *)
Example parse_session_id_two_markers :
  parse_session_id (lit "Session ID: a Session ID: b") = Some (lit "b").
Proof. reflexivity. Qed.

(** Whitespace is removed at both ends only. *)
Example parse_session_id_inner_blank :
  parse_session_id (lit "x Session ID:  abc 123  ") = Some (lit "abc 123").
Proof. reflexivity. Qed.



(** With an absolute path as key, the CLI is started on a file system in
    which the config directory of the scratch directory holds no file at
    all: the content was written into the store, and it is that outside
    path the CLI receives after [--config-files]. *)
Example config_staging_absolute_key :
  match log (snd (generate_endpoint sample_cli (lit "acme") (lit "ECC6")
                    [(lit "/output/stray.txt", lit "x")] [] None None None false
                    sample_world)) with
  | [EvPrint _; EvPrint _; EvRun cmd _ before; EvCommit] =>
      nth_error cmd 8 = Some (lit "/output/stray.txt") /\
      stat before (child sample_scratch (lit "config")) = Hit (Dir 100 []) /\
      stat before (parse_path (lit "/output/stray.txt")) = Hit (File 100 (lit "x")) /\
      stat (fs sample_world) (parse_path (lit "/output/stray.txt")) = Err ENOENT
  | _ => False
  end.
Proof. vm_compute. repeat split. Qed.


(** A key with a directory part makes the staging fail before the CLI is
    started, and so do a key with a NUL character, a key of more than 255
    bytes and a content that UTF-8 cannot encode. *)
Example config_staging_nested_key :
  exists w',
    generate_endpoint sample_cli (lit "acme") (lit "ECC6")
      [(lit "sub/config.txt", lit "x")] [] None None None false sample_world
    = (Raise (FileNotFoundError (lit "/tmp/tmpk3x9_a0b/config/sub/config.txt")), w') /\
    log w' = [].
Proof. eexists. vm_compute. split; reflexivity. Qed.

Example config_staging_nul_key :
  exists w',
    generate_endpoint sample_cli (lit "acme") (lit "ECC6")
      [(lit "a" ++ [0%N] ++ lit "b", lit "x")] [] None None None false sample_world
    = (Raise (ValueError (lit "embedded null byte")), w') /\
    log w' = [].
Proof. eexists. vm_compute. split; reflexivity. Qed.

Example config_staging_long_key :
  exists w',
    generate_endpoint sample_cli (lit "acme") (lit "ECC6")
      [(repeat 97%N 256, lit "x")] [] None None None false sample_world
    = (Raise (OSError (lit "File name too long")), w') /\
    log w' = [].
Proof. eexists. vm_compute. split; reflexivity. Qed.

Example config_staging_surrogate_content :
  exists w',
    generate_endpoint sample_cli (lit "acme") (lit "ECC6")
      [(lit "a.txt", [55296%N])] [] None None None false sample_world
    = (Raise UnicodeEncodeError, w') /\
    log w' = [].
Proof. eexists. vm_compute. split; reflexivity. Qed.

Section FacadeFacts.

Variable value : Type.
Variables py_None py_False : value.
Variable R : Type.
Variable remote : value -> value -> value -> value ->
                  value -> value -> value -> value -> M R.

(** C8. The HTTP facade.  When the body lacks one of the keys
    [customer_name], [sap_version], [config_files], [quote_fields],
    [api_generate] raises the [KeyError] of a missing required key and
    does nothing else; when the four are there it is the call of
    [generate_endpoint] on them, with every absent optional field at
    null and an absent [fork_session] at false, and its outcome is the
    outcome of that call. *)
Theorem api_generate_contract (item : list (str * value)) (w : world) :
  (forall k,
      In k [lit "customer_name"; lit "sap_version"; lit "config_files";
            lit "quote_fields"] ->
      assoc k item = None ->
      exists k',
        In k' [lit "customer_name"; lit "sap_version"; lit "config_files";
               lit "quote_fields"] /\
        assoc k' item = None /\
        api_generate py_None py_False remote item w = (Raise (KeyError k'), w)) /\
  (forall customer_name sap_version config_files quote_fields,
      assoc (lit "customer_name") item = Some customer_name ->
      assoc (lit "sap_version") item = Some sap_version ->
      assoc (lit "config_files") item = Some config_files ->
      assoc (lit "quote_fields") item = Some quote_fields ->
      api_generate py_None py_False remote item w
      = remote customer_name sap_version config_files quote_fields
          (match assoc (lit "custom_fields") item with
           | Some v => v | None => py_None end)
          (match assoc (lit "special_logic") item with
           | Some v => v | None => py_None end)
          (match assoc (lit "resume_session_id") item with
           | Some v => v | None => py_None end)
          (match assoc (lit "fork_session") item with
           | Some v => v | None => py_False end)
          w).
Proof.
  split.
  - intros k Hk Hmiss. unfold api_generate, getitem, bind, raise, ret.
    destruct (assoc (lit "customer_name") item) eqn:E1;
      [|exists (lit "customer_name"); simpl; auto].
    destruct (assoc (lit "sap_version") item) eqn:E2;
      [|exists (lit "sap_version"); simpl; auto].
    destruct (assoc (lit "config_files") item) eqn:E3;
      [|exists (lit "config_files"); simpl; auto 6].
    destruct (assoc (lit "quote_fields") item) eqn:E4;
      [|exists (lit "quote_fields"); simpl; auto 7].
    exfalso. simpl in Hk.
    destruct Hk as [<-|[<-|[<-|[<-|[]]]]]; congruence.
  - intros v1 v2 v3 v4 E1 E2 E3 E4.
    unfold api_generate, getitem, get_default. unfold bind at 1.
    rewrite E1. unfold ret at 1. unfold bind at 1. rewrite E2.
    unfold ret at 1. unfold bind at 1. rewrite E3. unfold ret at 1.
    unfold bind at 1. rewrite E4. unfold ret at 1.
    apply bind_ret.
Qed.

End FacadeFacts.

Lemma api_generate_contract_witness :
  api_generate None (Some (lit "false"))
    (fun a b c d e f g h => ret [a; b; c; d; e; f; g; h])
    [(lit "customer_name", Some (lit "acme")); (lit "sap_version", Some (lit "ECC6"));
     (lit "config_files", Some (lit "{}")); (lit "quote_fields", Some (lit "[]"))]
    sample_world
  = (Ok [Some (lit "acme"); Some (lit "ECC6"); Some (lit "{}"); Some (lit "[]");
         None; None; None; Some (lit "false")], sample_world)
  /\ exists k,
      api_generate None (Some (lit "false"))
        (fun a b c d e f g h => ret [a; b; c; d; e; f; g; h])
        [(lit "customer_name", Some (lit "acme"))] sample_world
      = (Raise (KeyError k), sample_world).
Proof.
  split.
  - apply (proj2 (api_generate_contract (option str) None (Some (lit "false")) (list (option str))
                    (fun a b c d e f g h => ret [a; b; c; d; e; f; g; h])
                    [(lit "customer_name", Some (lit "acme"));
                     (lit "sap_version", Some (lit "ECC6"));
                     (lit "config_files", Some (lit "{}"));
                     (lit "quote_fields", Some (lit "[]"))] sample_world));
      reflexivity.
  - destruct (proj1 (api_generate_contract (option str) None (Some (lit "false")) (list (option str))
                       (fun a b c d e f g h => ret [a; b; c; d; e; f; g; h])
                       [(lit "customer_name", Some (lit "acme"))] sample_world)
                (lit "sap_version") (or_intror (or_introl eq_refl)) eq_refl)
      as (k & _ & _ & H).
    exists k. exact H.
Defined.

(** On a body that carries the parameters of [generate_endpoint] as the
    annotations have them, the facade is [generate_endpoint] itself, with
    null for the absent optional fields and false for an absent
    [fork_session]. *)
Lemma api_generate_typed
    (cli : list str -> dict -> node -> node * CompletedProcess)
    (remote : json -> json -> json -> json -> json -> json -> json -> json ->
              M GenerationResult)
    (item : list (str * json)) (cn sv : str) (cfg : dict) (qf : list str)
    (cu : option dict) (sl rs : option str) (fk : option bool) (w : world) :
  (forall a b c d e f g h,
      remote (JString a) (JString b) (json_of_dict c) (json_of_strings d)
        (json_of_option json_of_dict e) (json_of_option JString f)
        (json_of_option JString g) (JBool h)
      = generate_endpoint cli a b c d e f g h) ->
  assoc (lit "customer_name") item = Some (JString cn) ->
  assoc (lit "sap_version") item = Some (JString sv) ->
  assoc (lit "config_files") item = Some (json_of_dict cfg) ->
  assoc (lit "quote_fields") item = Some (json_of_strings qf) ->
  assoc (lit "custom_fields") item = option_map json_of_dict cu ->
  assoc (lit "special_logic") item = option_map JString sl ->
  assoc (lit "resume_session_id") item = option_map JString rs ->
  assoc (lit "fork_session") item = option_map JBool fk ->
  api_generate JNull (JBool false) remote item w
  = generate_endpoint cli cn sv cfg qf cu sl rs
      (match fk with Some b => b | None => false end) w.
Proof.
  intros Hremote E1 E2 E3 E4 E5 E6 E7 E8.
  unfold api_generate, getitem, get_default.
  unfold bind at 1. rewrite E1. unfold ret at 1.
  unfold bind at 1. rewrite E2. unfold ret at 1.
  unfold bind at 1. rewrite E3. unfold ret at 1.
  unfold bind at 1. rewrite E4. unfold ret at 1.
  rewrite E5, E6, E7, E8, bind_ret.
  assert (Hopt : forall A (f : A -> json) (o : option A),
             match option_map f o with Some v => v | None => JNull end
             = json_of_option f o) by now intros A f [].
  assert (Hfk : match option_map JBool fk with Some v => v | None => JBool false end
                = JBool (match fk with Some b => b | None => false end))
    by now destruct fk.
  rewrite !Hopt, Hfk.
  exact (f_equal (fun m => m w) (Hremote cn sv cfg qf cu sl rs _)).
Qed.

(** C9. The [--fork] flag.  The command is the command built with
    [fork_session] false, followed by [--fork] exactly when
    [resume_session_id] is a non-empty string and [fork_session] is true;
    without a [resume_session_id] (null or empty), [generate_endpoint]
    with [fork_session] true is the same computation as with
    [fork_session] false. *)
Theorem fork_flag
    (cli : list str -> dict -> node -> node * CompletedProcess)
    (cn sv : str) (cfg : dict) (paths qf : list str) (cu : option dict)
    (sl rs : option str) (fk : bool) :
  build_cmd cn sv paths qf cu sl rs fk
  = build_cmd cn sv paths qf cu sl rs false ++
    (if truthy rs && fk then [lit "--fork"] else []) /\
  (truthy rs = false ->
   build_cmd cn sv paths qf cu sl rs true = build_cmd cn sv paths qf cu sl rs false /\
   generate_endpoint cli cn sv cfg qf cu sl rs true
   = generate_endpoint cli cn sv cfg qf cu sl rs false).
Proof.
  split.
  - unfold build_cmd.
    destruct rs as [[|c s]|]; destruct fk; simpl truthy; cbn [andb];
      rewrite ?app_nil_r; try reflexivity.
    rewrite <- !app_assoc. reflexivity.
  - intros H. destruct rs as [[|c s]|]; try discriminate H; split; reflexivity.
Qed.

Lemma fork_flag_witness :
  build_cmd (lit "acme") (lit "ECC6") [] [] None None (Some []) true
  = build_cmd (lit "acme") (lit "ECC6") [] [] None None (Some []) false.
Proof.
  apply (proj2 (fork_flag sample_cli (lit "acme") (lit "ECC6") [] [] [] None None
                  (Some []) true)).
  reflexivity.
Defined.

(** C10. Optional parameters are tested for truthiness: an empty
    [custom_fields] mapping and an empty [special_logic] string give the
    command, and the computation, that null gives; neither
    [--custom-fields] nor [--special-logic] is added. *)
Theorem empty_optionals_as_null
    (cli : list str -> dict -> node -> node * CompletedProcess)
    (cn sv : str) (cfg : dict) (paths qf : list str) (cu : option dict)
    (sl rs : option str) (fk : bool) :
  build_cmd cn sv paths qf (Some []) sl rs fk = build_cmd cn sv paths qf None sl rs fk /\
  build_cmd cn sv paths qf cu (Some []) rs fk = build_cmd cn sv paths qf cu None rs fk /\
  generate_endpoint cli cn sv cfg qf (Some []) sl rs fk
  = generate_endpoint cli cn sv cfg qf None sl rs fk /\
  generate_endpoint cli cn sv cfg qf cu (Some []) rs fk
  = generate_endpoint cli cn sv cfg qf cu None rs fk /\
  build_cmd cn sv paths qf (Some []) (Some []) None fk
  = [lit "node"; lit "/app/dist/cli.js"; lit "quote"; lit "--customer"; cn;
     lit "--sap-version"; sv; lit "--config-files"] ++ paths ++
    [lit "--output"; lit "/output"; lit "--fields"] ++ qf.
Proof.
  repeat split; try reflexivity.
  unfold build_cmd. now rewrite !app_nil_r.
Qed.

(** ** Further properties of the deployed functions *)

(** *** The course of a call *)

(** The staging either fails, leaving the process as it is, or hands
    over to lines 98-163. *)
Lemma generate_body_cases
    (cli : list str -> dict -> node -> node * CompletedProcess)
    (cn sv : str) (cfg : dict) (qf : list str) (cu : option dict)
    (sl rs : option str) (fk : bool) (tmp : Path) (w1 : world) :
  (exists e w2,
      generate_body cli cn sv cfg qf cu sl rs fk tmp w1 = (Raise e, w2) /\
      same_process w1 w2) \/
  (exists paths w3,
      same_process w1 w3 /\
      generate_body cli cn sv cfg qf cu sl rs fk tmp w1
      = generate_tail cli cn sv qf cu sl rs fk paths w3).
Proof.
  destruct (generate_body cli cn sv cfg qf cu sl rs fk tmp w1) as [o w2] eqn:Hb.
  unfold generate_body in Hb. unfold bind at 1 in Hb.
  pose proof (mkdir_process (joinpath tmp (lit "config")) w1) as Hm.
  destruct (mkdir (joinpath tmp (lit "config")) w1) as [[u|e] wa]; simpl in Hm.
  2:{ left. injection Hb as <- <-. now exists e, wa. }
  unfold bind at 1 in Hb.
  pose proof (write_config_files_process (joinpath tmp (lit "config")) cfg wa) as Hw.
  destruct (write_config_files (joinpath tmp (lit "config")) cfg wa)
    as [[paths|e] wb]; simpl in Hw.
  - right. exists paths, wb. split; [|now rewrite Hb].
    exact (same_process_trans _ _ _ Hm Hw).
  - left. injection Hb as <- <-. exists e, wb. split; [reflexivity|].
    exact (same_process_trans _ _ _ Hm Hw).
Qed.

(** A call either fails before line 98, with nothing printed, or is
    lines 98-163 followed by the removal of the scratch directory. *)
Lemma generate_endpoint_course
    (cli : list str -> dict -> node -> node * CompletedProcess)
    (cn sv : str) (cfg : dict) (qf : list str) (cu : option dict)
    (sl rs : option str) (fk : bool) (w : world) :
  (exists e w',
      generate_endpoint cli cn sv cfg qf cu sl rs fk w = (Raise e, w') /\
      same_process w w') \/
  (exists tmp paths w3,
      same_process w w3 /\
      generate_endpoint cli cn sv cfg qf cu sl rs fk w
      = (let (o, w4) := generate_tail cli cn sv qf cu sl rs fk paths w3 in
         match cleanup tmp w4 with
         | (Ok _, w5) => (o, w5)
         | (Raise e, w5) => (Raise e, w5)
         end)).
Proof.
  unfold generate_endpoint, with_TemporaryDirectory.
  pose proof (mkdtemp_loop_process TMP_MAX w) as H1. fold mkdtemp in H1.
  destruct (mkdtemp w) as [[tmp|e] w1]; simpl in H1.
  2:{ left. now exists e, w1. }
  destruct (generate_body_cases cli cn sv cfg qf cu sl rs fk tmp w1)
    as [(e & w2 & Hb & Hp)|(paths & w3 & Hp & Hb)]; rewrite Hb.
  - left. pose proof (cleanup_process tmp w2) as Hc.
    destruct (cleanup tmp w2) as [[u|e'] w5]; simpl in Hc;
      eexists; exists w5; (split; [reflexivity|]);
      exact (same_process_trans _ _ _ (same_process_trans _ _ _ H1 Hp) Hc).
  - right. exists tmp, paths, w3. split; [|reflexivity].
    exact (same_process_trans _ _ _ H1 Hp).
Qed.

Lemma assoc_remove_entry {A} (k : str) (l : list (str * A)) :
  assoc k (remove_entry k l) = None.
Proof.
  unfold remove_entry. induction l as [|[k' v] l IH]; simpl; [reflexivity|].
  destruct (str_eqb k' k) eqn:E; simpl; [exact IH|]. now rewrite E.
Qed.

(** When the removal of a scratch directory succeeds, nothing is left at
    its path. *)
Lemma cleanup_removes (p : Path) (x : str) (w w' : world) :
  plain (parts p) = true -> str_eqb x DOTDOT = false ->
  cleanup (child p x) w = (Ok tt, w') ->
  stat (fs w') (child p x) = Err ENOENT.
Proof.
  intros Hp Hx. unfold cleanup.
  destruct (path_error (fs w) (child p x)); [discriminate|].
  destruct (stat (fs w) (child p x)) as [[t d | t es]|[|]] eqn:Hs;
    try discriminate.
  - pose proof (stat_plain_inv _ _ _ (plain_child _ _ Hp Hx) Hs) as Hg.
    unfold stat in Hs.
    destruct (realpath (fs w) (child p x)) as [c|e] eqn:Hr; [|discriminate].
    pose proof (walk_plain_inv _ _ _ _ (plain_child _ _ Hp Hx) Hr) as Hc.
    simpl in Hc. subst c. simpl in Hg.
    rewrite get_app in Hg.
    destruct (get (fs w) (parts p)) as [[t0 d0 | t0 es0]|] eqn:Hgp;
      try discriminate.
    destruct (parts p ++ [x]) as [|y c] eqn:E.
    { destruct (parts p); discriminate. }
    rewrite <- E, removelast_last, last_last. intros [= <-].
    apply (stat_missing _ p x (clock w) (remove_entry x es0) Hp Hx);
      [|apply assoc_remove_entry].
    unfold fs at 1, set_fs. now rewrite (get_update _ _ _ _ Hgp).
  - now intros [= <-].
Qed.

Lemma customer_records_world (l : list Path) (w : world) :
  snd (customer_records l w) = w.
Proof.
  induction l as [|p l IH]; [reflexivity|].
  cbn [customer_records]. unfold bind at 1. unfold reads at 1.
  destruct (is_dir (fs w) p); [|exact IH].
  unfold bind at 1. unfold st_mtime.
  destruct (stat (fs w) p) as [[t d | t es]|[|]]; try reflexivity;
    unfold bind at 1; unfold reads at 1; unfold bind at 1;
    destruct (customer_records l w) as [[rest|e] w']; simpl in IH |- *;
    exact IH.
Qed.

(** X1. Without [ANTHROPIC_API_KEY] in the environment, a call of
    [generate_endpoint] ends in an exception, and everything it has done
    besides the staging is to print: the CLI is not run and the volume is
    not committed.  When the staging succeeds and the two lines can be
    printed, the exception is the [KeyError] of line 131, raised after
    both lines. *)
Theorem missing_api_key
    (cli : list str -> dict -> node -> node * CompletedProcess)
    (cn sv : str) (cfg : dict) (qf : list str) (cu : option dict)
    (sl rs : option str) (fk : bool) (w : world) :
  assoc API_KEY (environ w) = None ->
  (exists e w', generate_endpoint cli cn sv cfg qf cu sl rs fk w = (Raise e, w')) /\
  (forall ev,
      In ev (events_of w (generate_endpoint cli cn sv cfg qf cu sl rs fk w)) ->
      exists line, ev = EvPrint line) /\
  (forall w1 tmp,
      plain (parts (tempdir w)) = true ->
      mkdtemp w = (Ok tmp, w1) ->
      path_ok (child tmp (lit "config")) = true ->
      stageable (child tmp (lit "config")) cfg = true ->
      NoDup (map fst cfg) ->
      stdout_encodable w (start_line cn) = true ->
      stdout_encodable w
        (command_line
           (build_cmd cn sv
              (map (fun kv => path_str (child (child tmp (lit "config")) (fst kv))) cfg)
              qf cu sl rs fk)) = true ->
      exists w',
        generate_endpoint cli cn sv cfg qf cu sl rs fk w
        = (Raise (KeyError API_KEY), w') /\
        events_of w (generate_endpoint cli cn sv cfg qf cu sl rs fk w)
        = [EvPrint (start_line cn);
           EvPrint (command_line
                      (build_cmd cn sv
                         (map (fun kv => path_str (child (child tmp (lit "config"))
                                                     (fst kv))) cfg)
                         qf cu sl rs fk))]).
Proof.
  intros Hkey.
  assert (Hgen : exists e w' evs,
             generate_endpoint cli cn sv cfg qf cu sl rs fk w = (Raise e, w') /\
             log w' = log w ++ evs /\
             forall ev, In ev evs -> exists line, ev = EvPrint line).
  { destruct (generate_endpoint_course cli cn sv cfg qf cu sl rs fk w)
      as [(e & w' & Hg & Hp)|(tmp & paths & w3 & Hp & Hg)].
    - exists e, w', []. split; [exact Hg|]. split; [|intros ev []].
      destruct Hp as (_ & _ & _ & _ & Hl & _). now rewrite Hl, app_nil_r.
    - destruct Hp as (He & _ & _ & _ & Hl & _).
      rewrite Hg, generate_tail_unfold. cbv zeta. rewrite He, Hkey.
      destruct (stdout_encodable w3 (start_line cn)); cbn [negb];
        [destruct (stdout_encodable w3 _); cbn [negb]|];
        match goal with
        | |- context [cleanup tmp ?w4] =>
            pose proof (cleanup_log tmp w4) as Hc;
            destruct (cleanup tmp w4) as [[u|e] w5]; simpl in Hc
        end;
        do 2 eexists;
        [ exists [EvPrint (start_line cn);
                  EvPrint (command_line (build_cmd cn sv paths qf cu sl rs fk))]
        | exists [EvPrint (start_line cn);
                  EvPrint (command_line (build_cmd cn sv paths qf cu sl rs fk))]
        | exists [EvPrint (start_line cn)]
        | exists [EvPrint (start_line cn)]
        | exists []
        | exists [] ];
        (split; [reflexivity|]);
        (split; [rewrite Hc; simpl; rewrite Hl, <- ?app_assoc, ?app_nil_r; reflexivity|]);
        intros ev Hev; simpl in Hev;
        repeat (destruct Hev as [<-|Hev]; [eexists; reflexivity|]);
        contradiction. }
  destruct Hgen as (e & w' & evs & Hg & Hl & Hevs).
  split; [now exists e, w'|]. split.
  - intros ev Hev. apply Hevs.
    rewrite (events_of_app w _ evs) in Hev; [exact Hev|]. now rewrite Hg.
  - clear e w' evs Hg Hl Hevs.
    intros w1 tmp Hp Hmk Hok Hv Hnd Hp1 Hp2.
    destruct (generate_endpoint_staged cli cn sv cfg qf cu sl rs fk w w1 tmp
                Hp Hmk Hok Hv Hnd)
      as (nm & w3 & Htmp & Hnm & Hfresh & Hstaged & Hdir & He & Hl & Ho & Ha & Hgen).
    assert (Hso : forall line, stdout_encodable w3 line = stdout_encodable w line)
      by (intros line; unfold stdout_encodable; now rewrite Ho).
    assert (Hres : exists w',
               generate_endpoint cli cn sv cfg qf cu sl rs fk w
               = (Raise (KeyError API_KEY), w') /\
               log w' = log w ++
                        [EvPrint (start_line cn);
                         EvPrint (command_line
                                    (build_cmd cn sv
                                       (map (fun kv => path_str
                                               (child (child tmp (lit "config"))
                                                  (fst kv))) cfg)
                                       qf cu sl rs fk))]).
    { rewrite Hgen, generate_tail_unfold. cbv zeta.
      rewrite !Hso, Hp1, Hp2, He, Hkey. cbn [negb].
      match goal with
      | |- context [cleanup tmp ?w4] =>
          assert (Hd4 : is_dir (fs w4) tmp = true) by exact Hdir;
          pose proof (path_ok_parent _ _ Hok) as Hoktmp;
          rewrite Htmp in Hd4, Hoktmp;
          destruct (cleanup_ok (tempdir w) nm w4 Hp Hnm Hoktmp Hd4)
            as (w' & Hcl & Hlog')
      end.
      rewrite <- Htmp in Hcl. rewrite Hcl. exists w'. split; [reflexivity|].
      rewrite Hlog'. simpl. rewrite Hl, <- app_assoc. reflexivity. }
    destruct Hres as (w' & Hres & Hlog). exists w'. split; [exact Hres|].
    apply events_of_app. now rewrite Hres.
Qed.

Lemma keyless_mkdtemp :
  mkdtemp keyless_world = (Ok sample_scratch, snd (mkdtemp keyless_world)).
Proof. vm_compute. reflexivity. Qed.

Lemma missing_api_key_witness :
  exists w',
    generate_endpoint sample_cli (lit "acme") (lit "ECC6") sample_config
      [lit "customer_id"] None None None false keyless_world
    = (Raise (KeyError (lit "ANTHROPIC_API_KEY")), w').
Proof.
  destruct (proj2 (proj2 (missing_api_key sample_cli (lit "acme") (lit "ECC6")
                            sample_config [lit "customer_id"] None None None false
                            keyless_world eq_refl))
              (snd (mkdtemp keyless_world)) sample_scratch
              eq_refl keyless_mkdtemp eq_refl sample_stageable sample_config_nodup
              eq_refl eq_refl)
    as (w' & H & _).
  exists w'. exact H.
Defined.

(** X2. A call of [generate_endpoint] that returns has printed the start
    line and the command line, run the CLI once, on the command of lines
    98-120 and with the environment of the process, and committed the
    volume once, in this order, and nothing else. *)
Theorem generate_endpoint_trace
    (cli : list str -> dict -> node -> node * CompletedProcess)
    (cn sv : str) (cfg : dict) (qf : list str) (cu : option dict)
    (sl rs : option str) (fk : bool) (w w' : world) (r : GenerationResult) :
  generate_endpoint cli cn sv cfg qf cu sl rs fk w = (Ok r, w') ->
  exists paths before,
    length paths = length cfg /\
    events_of w (generate_endpoint cli cn sv cfg qf cu sl rs fk w)
    = [EvPrint (start_line cn);
       EvPrint (command_line (build_cmd cn sv paths qf cu sl rs fk));
       EvRun (build_cmd cn sv paths qf cu sl rs fk) (environ w) before;
       EvCommit].
Proof.
  intros H.
  assert (Hlen : forall cd items wa wb paths,
             write_config_files cd items wa = (Ok paths, wb) ->
             length paths = length items).
  { intros cd items. induction items as [|[k v] items IH]; intros wa wb paths Hw.
    - injection Hw as <- _. reflexivity.
    - cbn [write_config_files] in Hw.
      bind_inv Hw as u wc Hwt. bind_inv Hw as rest wd Hrest.
      injection Hw as <- _. simpl. f_equal. exact (IH _ _ _ Hrest). }
  assert (Hpaths : exists paths before,
             length paths = length cfg /\
             log w' = log w ++
                      [EvPrint (start_line cn);
                       EvPrint (command_line (build_cmd cn sv paths qf cu sl rs fk));
                       EvRun (build_cmd cn sv paths qf cu sl rs fk) (environ w) before;
                       EvCommit]).
  { revert H. unfold generate_endpoint, with_TemporaryDirectory.
    pose proof (mkdtemp_loop_process TMP_MAX w) as H1. fold mkdtemp in H1.
    destruct (mkdtemp w) as [[tmp|e] w1]; [|discriminate]. simpl in H1.
    destruct (generate_body _ _ _ _ _ _ _ _ _ _ w1) as [o w2] eqn:Hb.
    pose proof (cleanup_process tmp w2) as H3.
    destruct (cleanup tmp w2) as [[u|e] w3]; [|discriminate]. simpl in H3.
    intros [= -> ->].
    unfold generate_body in Hb.
    pose proof (mkdir_process (joinpath tmp (lit "config")) w1) as Hm.
    bind_inv Hb as u1 wa Hmk. rewrite Hmk in Hm. simpl in Hm.
    pose proof (write_config_files_process (joinpath tmp (lit "config")) cfg wa) as Hw.
    bind_inv Hb as paths wb Hwr. rewrite Hwr in Hw. simpl in Hw.
    pose proof (same_process_trans _ _ _ (same_process_trans _ _ _ H1 Hm) Hw)
      as (He & _ & _ & _ & Hl & _ & _).
    destruct (generate_tail_result cn sv qf cu sl rs fk cli paths wb w2 r Hb)
      as (out & err & found & _ & _ & _ & _ & _ & Hw2).
    cbv zeta in Hw2. rewrite He in Hw2.
    exists paths, (fs wb). split; [exact (Hlen _ _ _ _ _ Hwr)|].
    destruct H3 as (_ & _ & _ & _ & Hl3 & _). rewrite Hl3, Hw2. simpl.
    rewrite Hl, <- !app_assoc. reflexivity. }
  destruct Hpaths as (paths & before & Hn & Hlog).
  exists paths, before. split; [exact Hn|].
  apply events_of_app. now rewrite H.
Qed.

Lemma generate_endpoint_trace_witness :
  exists paths before,
    length paths = 2 /\
    sample_events
    = [EvPrint (start_line (lit "acme"));
       EvPrint (command_line
                  (build_cmd (lit "acme") (lit "ECC6") paths
                     [lit "customer_id"; lit "quote_date"; lit "total_amount"]
                     None None None false));
       EvRun (build_cmd (lit "acme") (lit "ECC6") paths
                [lit "customer_id"; lit "quote_date"; lit "total_amount"]
                None None None false) [(API_KEY, lit "sk-test")] before;
       EvCommit].
Proof.
  destruct (generate_endpoint_trace sample_cli (lit "acme") (lit "ECC6")
              sample_config
              [lit "customer_id"; lit "quote_date"; lit "total_amount"]
              None None None false sample_world (snd sample_run) sample_result
              sample_run_value)
    as (paths & before & Hn & Hev).
  exists paths, before. split; [exact Hn|].
  rewrite <- sample_events_value. exact Hev.
Defined.

(** X3. [generate_endpoint] leaves the environment of the process as it
    found it, whatever the outcome: the environment that the CLI receives
    is a copy. *)
Theorem environment_untouched
    (cli : list str -> dict -> node -> node * CompletedProcess)
    (cn sv : str) (cfg : dict) (qf : list str) (cu : option dict)
    (sl rs : option str) (fk : bool) (w : world) :
  environ (snd (generate_endpoint cli cn sv cfg qf cu sl rs fk w)) = environ w.
Proof.
  destruct (generate_endpoint_course cli cn sv cfg qf cu sl rs fk w)
    as [(e & w' & Hg & Hp)|(tmp & paths & w3 & Hp & Hg)]; rewrite Hg.
  - exact (proj1 Hp).
  - destruct (generate_tail_events cn sv qf cu sl rs fk cli paths w3)
      as (He & _).
    destruct (generate_tail cli cn sv qf cu sl rs fk paths w3) as [o w4].
    simpl in He.
    pose proof (cleanup_process tmp w4) as (Hc & _).
    destruct (cleanup tmp w4) as [[u|e] w5]; simpl in Hc |- *;
      now rewrite Hc, He, (proj1 Hp).
Qed.

(** X4. [list_customers] changes nothing: whatever the outcome, the world
    after the call is the world before it. *)
Theorem list_customers_read_only (w : world) :
  snd (list_customers w) = w.
Proof.
  unfold list_customers. unfold bind at 1. unfold tries at 1.
  rewrite Path_exists_output.
  destruct (path_exists (fs w) (parse_path OUTPUT)).
  - unfold bind at 1. unfold bind at 1. unfold iterdir.
    destruct (stat (fs w) (parse_path OUTPUT)) as [[t d | t es]|[|]];
      try reflexivity.
    pose proof (customer_records_world
                  (map (fun e => child (parse_path OUTPUT) (fst e)) es) w) as H.
    destruct (customer_records _ w) as [[l|e] w']; simpl in H |- *; exact H.
  - reflexivity.
Qed.




(** X7. When a call of [generate_endpoint] returns, the scratch directory
    that it made is gone. *)
Theorem scratch_directory_removed
    (cli : list str -> dict -> node -> node * CompletedProcess)
    (cn sv : str) (cfg : dict) (qf : list str) (cu : option dict)
    (sl rs : option str) (fk : bool) (w w1 w' : world) (tmp : Path)
    (r : GenerationResult) :
  plain (parts (tempdir w)) = true ->
  mkdtemp w = (Ok tmp, w1) ->
  generate_endpoint cli cn sv cfg qf cu sl rs fk w = (Ok r, w') ->
  stat (fs w) tmp = Err ENOENT /\ stat (fs w') tmp = Err ENOENT.
Proof.
  intros Hp Hmk. unfold generate_endpoint, with_TemporaryDirectory. rewrite Hmk.
  unfold mkdtemp in Hmk.
  destruct (mkdtemp_loop_inv _ _ _ _ Hp Hmk)
    as (nm & t & es & -> & Hnm & Hg & Ha & _).
  destruct (generate_body _ _ _ _ _ _ _ _ _ _ w1) as [o w2].
  destruct (cleanup (child (tempdir w) nm) w2) as [[[]|e] w3] eqn:Hc;
    [|discriminate].
  intros [= -> ->]. split.
  - exact (stat_missing _ _ _ _ _ Hp Hnm Hg Ha).
  - pose proof (cleanup_process (child (tempdir w) nm) w2) as Hpr.
    exact (cleanup_removes _ _ _ _ Hp Hnm Hc).
Qed.

Lemma scratch_directory_removed_witness :
  stat (fs sample_world) sample_scratch = Err ENOENT /\
  stat (fs (snd sample_run)) sample_scratch = Err ENOENT.
Proof.
  exact (scratch_directory_removed sample_cli (lit "acme") (lit "ECC6")
           sample_config
           [lit "customer_id"; lit "quote_date"; lit "total_amount"]
           None None None false sample_world (snd (mkdtemp sample_world))
           (snd sample_run) sample_scratch sample_result
           eq_refl sample_mkdtemp sample_run_value).
Defined.

(** X8. When [subprocess.run] cannot start the process (an argument or
    an environment entry that cannot be converted, or more than [execve]
    takes), the exception leaves [generate_endpoint] after the two lines
    were printed: the CLI is not run, nothing is committed, and the
    scratch directory is removed. *)
Theorem launch_refused
    (cli : list str -> dict -> node -> node * CompletedProcess)
    (cn sv : str) (cfg : dict) (qf : list str) (cu : option dict)
    (sl rs : option str) (fk : bool) (w w1 : world) (tmp : Path)
    (key : str) (e : exn) :
  plain (parts (tempdir w)) = true ->
  mkdtemp w = (Ok tmp, w1) ->
  path_ok (child tmp (lit "config")) = true ->
  stageable (child tmp (lit "config")) cfg = true ->
  NoDup (map fst cfg) ->
  assoc API_KEY (environ w) = Some key ->
  stdout_encodable w (start_line cn) = true ->
  stdout_encodable w
    (command_line
       (build_cmd cn sv
          (map (fun kv => path_str (child (child tmp (lit "config")) (fst kv))) cfg)
          qf cu sl rs fk)) = true ->
  launch_error (arg_max w)
    (build_cmd cn sv
       (map (fun kv => path_str (child (child tmp (lit "config")) (fst kv))) cfg)
       qf cu sl rs fk) (environ w) = Some e ->
  exists w',
    generate_endpoint cli cn sv cfg qf cu sl rs fk w = (Raise e, w') /\
    events_of w (generate_endpoint cli cn sv cfg qf cu sl rs fk w)
    = [EvPrint (start_line cn);
       EvPrint (command_line
                  (build_cmd cn sv
                     (map (fun kv => path_str (child (child tmp (lit "config"))
                                                 (fst kv))) cfg)
                     qf cu sl rs fk))] /\
    stat (fs w') tmp = Err ENOENT.
Proof.
  intros Hp Hmk Hok Hv Hnd Hkey Hp1 Hp2 Hla.
  destruct (generate_endpoint_staged cli cn sv cfg qf cu sl rs fk w w1 tmp
              Hp Hmk Hok Hv Hnd)
    as (nm & w3 & Htmp & Hnm & Hfresh & Hstaged & Hdir & He & Hl & Ho & Ha & Hgen).
  assert (Hso : forall line, stdout_encodable w3 line = stdout_encodable w line)
    by (intros line; unfold stdout_encodable; now rewrite Ho).
  assert (Hres : exists w',
             generate_endpoint cli cn sv cfg qf cu sl rs fk w = (Raise e, w') /\
             log w' = log w ++
                      [EvPrint (start_line cn);
                       EvPrint (command_line
                                  (build_cmd cn sv
                                     (map (fun kv => path_str
                                             (child (child tmp (lit "config"))
                                                (fst kv))) cfg)
                                     qf cu sl rs fk))] /\
             stat (fs w') tmp = Err ENOENT).
  { rewrite Hgen, generate_tail_unfold. cbv zeta.
    rewrite !Hso, Hp1, Hp2, He, Hkey, Ha, Hla. cbn [negb].
    match goal with
    | |- context [cleanup tmp ?w4] =>
        assert (Hd4 : is_dir (fs w4) tmp = true) by exact Hdir;
        pose proof (path_ok_parent _ _ Hok) as Hoktmp;
        rewrite Htmp in Hd4, Hoktmp;
        destruct (cleanup_ok (tempdir w) nm w4 Hp Hnm Hoktmp Hd4)
          as (w' & Hcl & Hlog')
    end.
    pose proof (cleanup_removes _ _ _ _ Hp Hnm Hcl) as Hgone.
    rewrite <- Htmp in Hcl, Hgone. rewrite Hcl. exists w'.
    split; [reflexivity|]. split; [|exact Hgone].
    rewrite Hlog'. simpl. rewrite Hl, <- app_assoc. reflexivity. }
  destruct Hres as (w' & Hres & Hlog & Hgone). exists w'.
  split; [exact Hres|]. split; [|exact Hgone].
  apply events_of_app. now rewrite Hres.
Qed.

Lemma launch_refused_witness :
  exists w',
    generate_endpoint sample_cli (lit "ac" ++ [0%N] ++ lit "me") (lit "ECC6")
      sample_config [lit "customer_id"] None None None false sample_world
    = (Raise (ValueError (lit "embedded null byte")), w') /\
    stat (fs w') sample_scratch = Err ENOENT.
Proof.
  destruct (launch_refused sample_cli (lit "ac" ++ [0%N] ++ lit "me") (lit "ECC6")
              sample_config [lit "customer_id"] None None None false
              sample_world (snd (mkdtemp sample_world)) sample_scratch
              (lit "sk-test") (ValueError (lit "embedded null byte"))
              eq_refl sample_mkdtemp eq_refl sample_stageable sample_config_nodup
              eq_refl eq_refl eq_refl eq_refl)
    as (w' & H & _ & Hgone).
  exists w'. split; [exact H | exact Hgone].
Defined.


